(** * FetchORM: the query model, the validators, the fluent builders and the
    FetchXML renderer, embedded from the TypeScript sources.

    JavaScript strings are modelled as [string] (a sequence of 8-bit code
    units, the Latin-1 range of UTF-16), optional fields as
    [option], and a call that throws as a [Throw] result paired with the
    store the call leaves behind.  A number is an integer, NaN or one of
    the two infinities ([JS.number]); fractions are outside the model.  The
    logger is diagnostic only; its wrapper class is modelled on its own. *)

From Stdlib Require Import String Ascii List ZArith Bool Lia.
From Stdlib Require Import DecimalString.
Import ListNotations.
Local Open Scope string_scope.
Local Open Scope Z_scope.

(** ** JavaScript primitives used by the sources *)

Module JS.

(** The double quote character, U+0022. *)
Definition dquote : ascii := ascii_of_nat 34.
Definition q : string := String dquote EmptyString.

(** [s.replace(/c/g, r)] for a one-character pattern [c] and a replacement
    text [r] without dollar patterns. *)
Fixpoint replaceAll (c : ascii) (r : string) (s : string) : string :=
  match s with
  | EmptyString => EmptyString
  | String x t =>
      if Ascii.eqb x c then r ++ replaceAll c r t
      else String x (replaceAll c r t)
  end.

(** White space as [String.prototype.trim] sees it, within 8-bit code
    units: TAB, LF, VT, FF, CR, SPACE and NBSP. *)
Definition isWhiteSpace (c : ascii) : bool :=
  let n := nat_of_ascii c in
  ((9 <=? n)%nat && (n <=? 13)%nat) || (n =? 32)%nat || (n =? 160)%nat.

Fixpoint trimStart (s : string) : string :=
  match s with
  | EmptyString => EmptyString
  | String c t => if isWhiteSpace c then trimStart t else s
  end.

Fixpoint rev_string (acc s : string) : string :=
  match s with
  | EmptyString => acc
  | String c t => rev_string (String c acc) t
  end.

Definition trimEnd (s : string) : string :=
  rev_string EmptyString (trimStart (rev_string EmptyString s)).

Definition trim (s : string) : string := trimEnd (trimStart s).

(** Truthiness of a string: every string but the empty one. *)
Definition truthy_string (s : string) : bool :=
  negb (s =? EmptyString)%string.

(** Truthiness of an optional string field ([undefined] is falsy). *)
Definition truthy_opt_string (o : option string) : bool :=
  match o with
  | Some s => truthy_string s
  | None => false
  end.

(** A number: an integer, NaN, or an infinity.  An integer stands for the
    double of that value. *)
Inductive number : Type :=
| Num (n : Z)
| NaN
| Infinity
| NegInfinity.

(** [a < b] and [a > b] on numbers: every comparison with NaN is false. *)
Definition ltb (a b : number) : bool :=
  match a, b with
  | NaN, _ | _, NaN => false
  | Num x, Num y => x <? y
  | NegInfinity, NegInfinity => false
  | NegInfinity, _ => true
  | _, NegInfinity => false
  | Infinity, _ => false
  | Num _, Infinity => true
  end.

Definition gtb (a b : number) : bool := ltb b a.

(** Truthiness of a number: every number but [0] and NaN. *)
Definition truthy_number (n : number) : bool :=
  match n with
  | Num z => negb (z =? 0)
  | NaN => false
  | Infinity | NegInfinity => true
  end.

(** The text of a number, as template literals and
    [Number.prototype.toString] print it: decimal digits for an integer
    (below 10^21 in magnitude, where JavaScript does not switch to exponent
    notation). *)
Definition number_toString (n : number) : string :=
  match n with
  | Num z => NilZero.string_of_int (Z.to_int z)
  | NaN => "NaN"
  | Infinity => "Infinity"
  | NegInfinity => "-Infinity"
  end.

Definition boolean_toString (b : bool) : string :=
  if b then "true" else "false".

(** The values a condition may carry ([value?: any]), restricted to the
    serializable scalars of the data model. *)
Inductive value : Type :=
| VUndefined
| VNull
| VBoolean (b : bool)
| VNumber (n : number)
| VString (s : string).

(** [v !== undefined && v !== null] *)
Definition is_present (v : value) : bool :=
  match v with
  | VUndefined | VNull => false
  | _ => true
  end.

(** [v.toString()]; it is only called on present values, where it cannot
    throw. *)
Definition toString (v : value) : string :=
  match v with
  | VUndefined | VNull => EmptyString
  | VBoolean b => boolean_toString b
  | VNumber n => number_toString n
  | VString s => s
  end.

End JS.

(** An integer where a number is expected is that integer, also under
    [Some] when an optional number is expected. *)
Coercion JS.Num : Z >-> JS.number.
Arguments Some {A} & a.

(** ** A reference XML unescaper

    The repository only escapes; the round-trip property is stated against
    this reader of escaped text.  It scans left to right; at an ampersand
    that starts one of the five predefined entities, or the character
    reference the renderer uses for the apostrophe, it emits the character
    and skips the rest of the reference; every other character is copied. *)

Module XmlRef.

Fixpoint starts_with (p s : string) : bool :=
  match p, s with
  | EmptyString, _ => true
  | String a p', String b s' => Ascii.eqb a b && starts_with p' s'
  | String _ _, EmptyString => false
  end.

(** The entity that starts at the head of [s], as the decoded character
    and the number of characters after the ampersand that belong to it. *)
Definition entity_at (s : string) : option (ascii * nat) :=
  if starts_with "&amp;" s then Some ("&"%char, 4%nat)
  else if starts_with "&lt;" s then Some ("<"%char, 3%nat)
  else if starts_with "&gt;" s then Some (">"%char, 3%nat)
  else if starts_with "&quot;" s then Some (JS.dquote, 5%nat)
  else if starts_with "&apos;" s then Some ("'"%char, 5%nat)
  else if starts_with "&#39;" s then Some ("'"%char, 4%nat)
  else None.

Fixpoint unescape_from (skip : nat) (s : string) : string :=
  match s with
  | EmptyString => EmptyString
  | String c t =>
      match skip with
      | S k => unescape_from k t
      | O =>
          match entity_at s with
          | Some (d, k) => String d (unescape_from k t)
          | None => String c (unescape_from O t)
          end
      end
  end.

Definition unescapeXml (s : string) : string := unescape_from O s.

End XmlRef.

(** ** Errors (src/errors/index.ts) *)

Inductive Error : Type :=
| ValidationError (message : string) (field : string)
| QueryBuildError (message : string).

Inductive result (A : Type) : Type :=
| Ok (a : A)
| Throw (e : Error).
Arguments Ok {A} a.
Arguments Throw {A} e.

Definition is_ValidationError {A} (r : result A) : bool :=
  match r with
  | Throw (ValidationError _ _) => true
  | _ => false
  end.

Definition is_Ok {A} (r : result A) : bool :=
  match r with
  | Ok _ => true
  | Throw _ => false
  end.

(** ** The query model (src/types) *)

Record FilterCondition : Type := mkFilterCondition {
  cond_attribute : string;
  cond_operator : string;
  cond_value : JS.value
}.

(** A filter group holds conditions and nested groups; the renderer tells
    them apart by the presence of the [type] key. *)
Inductive FilterGroup : Type :=
| mkFilterGroup (type : string) (conditions : list FilterEntry)
with FilterEntry : Type :=
| ECondition (c : FilterCondition)
| EGroup (g : FilterGroup).

Definition filter_type (f : FilterGroup) : string :=
  match f with mkFilterGroup t _ => t end.
Definition filter_conditions (f : FilterGroup) : list FilterEntry :=
  match f with mkFilterGroup _ cs => cs end.

Record OrderBy : Type := mkOrderBy {
  order_attribute : string;
  order_order : string
}.

(** [Attribute | AggregateAttribute]: the [aggregate] key is present on the
    second only. *)
Record Attribute : Type := mkAttribute {
  attr_name : string;
  attr_alias : option string;
  attr_aggregate : option string
}.

#[local] Unset Elimination Schemes.
Inductive LinkEntity : Type :=
| mkLinkEntity (name from to : string) (alias : option string)
    (linkType : option string) (attributes : list Attribute)
    (filters : option FilterGroup) (links : option (list LinkEntity)).
#[local] Set Elimination Schemes.

Definition link_name (l : LinkEntity) :=
  match l with mkLinkEntity n _ _ _ _ _ _ _ => n end.
Definition link_from (l : LinkEntity) :=
  match l with mkLinkEntity _ f _ _ _ _ _ _ => f end.
Definition link_to (l : LinkEntity) :=
  match l with mkLinkEntity _ _ t _ _ _ _ _ => t end.
Definition link_alias (l : LinkEntity) :=
  match l with mkLinkEntity _ _ _ a _ _ _ _ => a end.
Definition link_linkType (l : LinkEntity) :=
  match l with mkLinkEntity _ _ _ _ k _ _ _ => k end.
Definition link_attributes (l : LinkEntity) :=
  match l with mkLinkEntity _ _ _ _ _ a _ _ => a end.
Definition link_filters (l : LinkEntity) :=
  match l with mkLinkEntity _ _ _ _ _ _ f _ => f end.
Definition link_links (l : LinkEntity) :=
  match l with mkLinkEntity _ _ _ _ _ _ _ ls => ls end.

Record FetchQuery : Type := mkFetchQuery {
  entity : string;
  attributes : list Attribute;
  filters : option FilterGroup;
  orders : option (list OrderBy);
  links : option (list LinkEntity);
  distinct : option bool;
  top : option JS.number;
  page : option JS.number;
  count : option JS.number
}.

(** ** The validators (src/validators/index.ts) *)

Module Validator.

Definition MAX_PAGE_SIZE : JS.number := 5000.
Definition MAX_TOP_SIZE : JS.number := 5000.
Definition MIN_PAGE_SIZE : JS.number := 1.
Definition MIN_TOP_SIZE : JS.number := 1.

(** [Array.prototype.includes] on an array of strings. *)
Definition includes (l : list string) (s : string) : bool :=
  existsb (String.eqb s) l.

Definition validOperators : list string :=
  [ "eq"; "ne"; "gt"; "ge"; "lt"; "le"; "like"; "not-like";
    "in"; "not-in"; "null"; "not-null"; "on"; "on-or-before";
    "on-or-after"; "yesterday"; "today"; "tomorrow";
    "last-seven-days"; "next-seven-days"; "last-week";
    "this-week"; "next-week"; "last-month"; "this-month";
    "next-month"; "last-year"; "this-year"; "next-year" ].

Definition validateFilterOperator (operator : string) : result string :=
  if negb (includes validOperators operator) then
    Throw (ValidationError ("Invalid filter operator: " ++ operator)
                           "operator")
  else Ok operator.

Definition validOrders : list string := [ "asc"; "desc" ].

Definition validateOrderType (order : string) : result string :=
  if negb (includes validOrders order) then
    Throw (ValidationError ("Invalid order type: " ++ order) "order")
  else Ok order.

Definition validAggregates : list string :=
  [ "count"; "countcolumn"; "sum"; "avg"; "min"; "max" ].

Definition validateAggregateType (aggregate : string) : result string :=
  if negb (includes validAggregates aggregate) then
    Throw (ValidationError ("Invalid aggregate type: " ++ aggregate)
                           "aggregate")
  else Ok aggregate.

(** [!name || typeof name !== 'string' || name.trim() === ''] on a
    string argument. *)
Definition invalid_name (name : string) : bool :=
  negb (JS.truthy_string name) || (JS.trim name =? EmptyString)%string.

Definition validateAttributeName (attribute : string) : result unit :=
  if invalid_name attribute then
    Throw (ValidationError "Attribute name cannot be empty" "attribute")
  else Ok tt.

Definition validateEntityName (entityName : string) : result unit :=
  if invalid_name entityName then
    Throw (ValidationError "Entity name cannot be empty" "entityName")
  else Ok tt.

Definition validatePagination (page count : JS.number) : result unit :=
  if JS.ltb page MIN_PAGE_SIZE then
    Throw (ValidationError
             ("Page number must be greater than "
                ++ JS.number_toString MIN_PAGE_SIZE) "page")
  else if JS.ltb count MIN_PAGE_SIZE || JS.gtb count MAX_PAGE_SIZE then
    Throw (ValidationError
             ("Page count must be between "
                ++ JS.number_toString MIN_PAGE_SIZE ++ " and "
                ++ JS.number_toString MAX_PAGE_SIZE) "count")
  else Ok tt.

Definition validateTop (top : JS.number) : result unit :=
  if JS.ltb top MIN_TOP_SIZE || JS.gtb top MAX_TOP_SIZE then
    Throw (ValidationError
             ("Top value must be between "
                ++ JS.number_toString MIN_TOP_SIZE ++ " and "
                ++ JS.number_toString MAX_TOP_SIZE) "top")
  else Ok tt.

End Validator.

(** ** The renderer (src/builders/xml-builder.ts)

    Each [xml += ...] of the source is one append; a [for ... of] loop is a
    left fold over the array. *)

Module FetchXMLBuilder.
Import JS.

Definition escapeXml (value : string) : string :=
  replaceAll "'" "&#39;"
    (replaceAll dquote "&quot;"
       (replaceAll ">" "&gt;"
          (replaceAll "<" "&lt;"
             (replaceAll "&" "&amp;" value)))).

(** The body of the attribute loop, shared verbatim by [buildAttributes]
    and [buildLinkEntity]. *)
Definition appendAttribute (xml : string) (attr : Attribute) : string :=
  let xml := xml ++ "<attribute" in
  let xml := xml ++ " name=" ++ q ++ escapeXml (attr_name attr) ++ q in
  let xml :=
    match attr_alias attr with
    | Some a =>
        if truthy_string a then xml ++ " alias=" ++ q ++ escapeXml a ++ q
        else xml
    | None => xml
    end in
  let xml :=
    match attr_aggregate attr with
    | Some g => xml ++ " aggregate=" ++ q ++ g ++ q
    | None => xml
    end in
  xml ++ "/>".

Definition buildAttributes (query : FetchQuery) : string :=
  fold_left appendAttribute (attributes query) EmptyString.

Definition buildCondition (condition : FilterCondition) : string :=
  let xml := "<condition" in
  let xml :=
    xml ++ " attribute=" ++ q ++ escapeXml (cond_attribute condition) ++ q in
  let xml := xml ++ " operator=" ++ q ++ cond_operator condition ++ q in
  let xml :=
    if is_present (cond_value condition) then
      xml ++ " value=" ++ q
          ++ escapeXml (toString (cond_value condition)) ++ q
    else xml in
  xml ++ "/>".

Fixpoint buildFilter (filter : FilterGroup) : string :=
  match filter with
  | mkFilterGroup type conditions =>
      let xml := "<filter type=" ++ q ++ type ++ q ++ ">" in
      let xml :=
        fold_left
          (fun xml condition =>
             match condition with
             | EGroup g => xml ++ buildFilter g
             | ECondition c => xml ++ buildCondition c
             end)
          conditions xml in
      xml ++ "</filter>"
  end.

Definition appendOrder (xml : string) (order : OrderBy) : string :=
  xml ++ "<order attribute=" ++ q ++ escapeXml (order_attribute order) ++ q
      ++ " descending=" ++ q
      ++ boolean_toString (order_order order =? "desc")%string ++ q ++ "/>".

Definition buildOrders (orders : list OrderBy) : string :=
  fold_left appendOrder orders EmptyString.

Fixpoint buildLinkEntity (link : LinkEntity) : string :=
  match link with
  | mkLinkEntity name from to alias linkType attributes filters links =>
      let xml := "<link-entity" in
      let xml := xml ++ " name=" ++ q ++ escapeXml name ++ q in
      let xml := xml ++ " from=" ++ q ++ escapeXml from ++ q in
      let xml := xml ++ " to=" ++ q ++ escapeXml to ++ q in
      let xml :=
        match alias with
        | Some a =>
            if truthy_string a then xml ++ " alias=" ++ q ++ escapeXml a ++ q
            else xml
        | None => xml
        end in
      let xml :=
        match linkType with
        | Some k =>
            if truthy_string k then xml ++ " link-type=" ++ q ++ k ++ q
            else xml
        | None => xml
        end in
      let xml := xml ++ ">" in
      let xml := fold_left appendAttribute attributes xml in
      let xml :=
        match filters with
        | Some f => xml ++ buildFilter f
        | None => xml
        end in
      let xml :=
        match links with
        | Some ls =>
            fold_left (fun xml nestedLink => xml ++ buildLinkEntity nestedLink)
              ls xml
        | None => xml
        end in
      xml ++ "</link-entity>"
  end.

Definition buildLinks (links : list LinkEntity) : string :=
  fold_left (fun xml link => xml ++ buildLinkEntity link) links EmptyString.

(** [build]: no step of the walk can throw on a model of these types, so
    the [catch] that wraps a failure into a QueryBuildError is never
    entered and the result is the string itself. *)
Definition build (query : FetchQuery) : string :=
  let xml := "<fetch" in
  let xml :=
    match distinct query with
    | Some true => xml ++ " distinct=" ++ q ++ "true" ++ q
    | _ => xml
    end in
  let xml :=
    match top query with
    | Some n =>
        if truthy_number n
        then xml ++ " top=" ++ q ++ number_toString n ++ q else xml
    | None => xml
    end in
  let xml :=
    match page query with
    | Some n =>
        if truthy_number n
        then xml ++ " page=" ++ q ++ number_toString n ++ q else xml
    | None => xml
    end in
  let xml :=
    match count query with
    | Some n =>
        if truthy_number n
        then xml ++ " count=" ++ q ++ number_toString n ++ q else xml
    | None => xml
    end in
  let xml := xml ++ ">" in
  let xml := xml ++ "<entity name=" ++ q ++ entity query ++ q ++ ">" in
  let xml := xml ++ buildAttributes query in
  let xml :=
    match filters query with
    | Some f => xml ++ buildFilter f
    | None => xml
    end in
  let xml :=
    match orders query with
    | Some os => xml ++ buildOrders os
    | None => xml
    end in
  let xml :=
    match links query with
    | Some ls => xml ++ buildLinks ls
    | None => xml
    end in
  let xml := xml ++ "</entity>" in
  xml ++ "</fetch>".

End FetchXMLBuilder.

(** ** A store-and-exception monad for the fluent builders

    A builder method runs against the builder object (the store) and either
    returns or throws; in both cases the store it leaves behind is part of
    the outcome.  The [try { ... } catch (error) { log; throw error; }] frame
    every method has rethrows the error it caught, so it is the identity on
    outcomes and is not written out. *)

Definition M (S A : Type) : Type := S -> result A * S.

Section Store.
Context {S : Type}.

Definition ret {A} (a : A) : M S A := fun s => (Ok a, s).

Definition bind {A B} (m : M S A) (k : A -> M S B) : M S B :=
  fun s =>
    match m s with
    | (Ok a, s') => k a s'
    | (Throw e, s') => (Throw e, s')
    end.

(** A call to a static validator: it reads and writes no store. *)
Definition call {A} (r : result A) : M S A := fun s => (r, s).

Definition get : M S S := fun s => (Ok s, s).

Definition modify (f : S -> S) : M S unit := fun s => (Ok tt, f s).

Definition when (b : bool) (m : M S unit) : M S unit :=
  if b then m else ret tt.

(** The outcome and the store after a call. *)
Definition outcome {A} (x : result A * S) : result A := fst x.
Definition store {A} (x : result A * S) : S := snd x.

End Store.

Declare Scope js_scope.
Delimit Scope js_scope with js.
Notation "x <- m ;; k" := (bind m (fun x => k))
  (at level 61, m at next level, right associativity) : js_scope.
Notation "m ;; k" := (bind m (fun _ => k))
  (at level 61, right associativity) : js_scope.

(** [array.map(f)] with a callback that may throw: elements are visited in
    order and the first throw ends the call. *)
Fixpoint mapM {S A B} (f : A -> M S B) (l : list A) : M S (list B) :=
  match l with
  | [] => ret []
  | x :: t =>
      (y <- f x ;;
       ys <- mapM f t ;;
       ret (y :: ys))%js
  end.

(** ** The join builder (src/builders/join-builder.ts)

    The store of a join builder's method is the link object the builder is
    bound to; [BaseEntity.on_link] below runs such a method on a link that
    sits inside a query, which is how the builder returned by [join] shares
    the link with the query. *)

Definition link_push_attributes (new : list Attribute) (l : LinkEntity)
  : LinkEntity :=
  match l with
  | mkLinkEntity n f t a k attrs fs ls =>
      mkLinkEntity n f t a k (attrs ++ new) fs ls
  end.

Definition link_set_filters (fs : option FilterGroup) (l : LinkEntity)
  : LinkEntity :=
  match l with
  | mkLinkEntity n f t a k attrs _ ls => mkLinkEntity n f t a k attrs fs ls
  end.

(** [group.conditions.push(c)] on an optional group that is present. *)
Definition filters_push (c : FilterCondition) (fs : option FilterGroup)
  : option FilterGroup :=
  match fs with
  | Some (mkFilterGroup t cs) => Some (mkFilterGroup t (cs ++ [ECondition c]))
  | None => None
  end.

Definition is_undefined {A} (o : option A) : bool :=
  match o with
  | Some _ => false
  | None => true
  end.

Module JoinBuilder.
Local Open Scope js_scope.

Definition select (attributes : list string) : M LinkEntity unit :=
  newAttributes <-
    mapM (fun attr =>
            let attributeName := attr in
            call (Validator.validateAttributeName attributeName) ;;
            ret (mkAttribute attributeName None None))
         attributes ;;
  modify (link_push_attributes newAttributes).

Definition selectAs (attribute alias : string) : M LinkEntity unit :=
  let attributeName := attribute in
  call (Validator.validateAttributeName attributeName) ;;
  call (Validator.validateAttributeName alias) ;;
  modify (link_push_attributes [mkAttribute attributeName (Some alias) None]).

Definition where_ (attribute operator : string) (value : JS.value)
  : M LinkEntity unit :=
  let attributeName := attribute in
  call (Validator.validateAttributeName attributeName) ;;
  validOperator <- call (Validator.validateFilterOperator operator) ;;
  let condition := mkFilterCondition attributeName validOperator value in
  link <- get ;;
  when (is_undefined (link_filters link))
       (modify (link_set_filters (Some (mkFilterGroup "and" [])))) ;;
  modify (fun l => link_set_filters (filters_push condition (link_filters l)) l).

End JoinBuilder.

(** ** The entity builder (src/entities/base-entity.ts) *)

(** A builder object: the [entityName] field the concrete subclass declares
    and the query it accumulates. *)
Record BaseEntity : Type := mkBaseEntity {
  entityName : string;
  query : FetchQuery
}.

Definition set_query (f : FetchQuery -> FetchQuery) (this : BaseEntity)
  : BaseEntity :=
  mkBaseEntity (entityName this) (f (query this)).

Definition push_attributes (new : list Attribute) (x : FetchQuery)
  : FetchQuery :=
  mkFetchQuery (entity x) (attributes x ++ new) (filters x) (orders x)
    (links x) (distinct x) (top x) (page x) (count x).

Definition set_filters (fs : option FilterGroup) (x : FetchQuery)
  : FetchQuery :=
  mkFetchQuery (entity x) (attributes x) fs (orders x) (links x) (distinct x)
    (top x) (page x) (count x).

Definition set_orders (os : option (list OrderBy)) (x : FetchQuery)
  : FetchQuery :=
  mkFetchQuery (entity x) (attributes x) (filters x) os (links x) (distinct x)
    (top x) (page x) (count x).

Definition set_links (ls : option (list LinkEntity)) (x : FetchQuery)
  : FetchQuery :=
  mkFetchQuery (entity x) (attributes x) (filters x) (orders x) ls (distinct x)
    (top x) (page x) (count x).

Definition set_distinct (d : option bool) (x : FetchQuery) : FetchQuery :=
  mkFetchQuery (entity x) (attributes x) (filters x) (orders x) (links x) d
    (top x) (page x) (count x).

Definition set_top (n : option JS.number) (x : FetchQuery)
  : FetchQuery :=
  mkFetchQuery (entity x) (attributes x) (filters x) (orders x) (links x)
    (distinct x) n (page x) (count x).

Definition set_page (n : option JS.number) (x : FetchQuery)
  : FetchQuery :=
  mkFetchQuery (entity x) (attributes x) (filters x) (orders x) (links x)
    (distinct x) (top x) n (count x).

Definition set_count (n : option JS.number) (x : FetchQuery)
  : FetchQuery :=
  mkFetchQuery (entity x) (attributes x) (filters x) (orders x) (links x)
    (distinct x) (top x) (page x) n.

(** [array.push(x)] on an optional array that is present. *)
Definition opt_push {A} (x : A) (o : option (list A)) : option (list A) :=
  match o with
  | Some l => Some (l ++ [x])%list
  | None => None
  end.

(** A parameter with a default value: the default stands in for
    [undefined]. *)
Definition default {A} (d : A) (o : option A) : A :=
  match o with
  | Some a => a
  | None => d
  end.

(** The join builder returned by [join]: its [link] is the object at this
    position of the parent's [query.links], its [parent] is the store. *)
Record JoinBuilderRef : Type := mkJoinBuilderRef { link : nat }.

Fixpoint update_nth {A} (i : nat) (f : A -> A) (l : list A) : list A :=
  match l, i with
  | [], _ => []
  | x :: t, O => f x :: t
  | x :: t, S j => x :: update_nth j f t
  end.

Module BaseEntity.
Local Open Scope js_scope.

(** [new C(entityName)] for a concrete subclass [C] that declares the
    field [entityName = classEntityName]: the constructor stores its
    argument in the query and validates nothing. *)
Definition new (classEntityName : string) (entityName : string)
  : BaseEntity :=
  mkBaseEntity classEntityName
    (mkFetchQuery entityName [] None None None None None None None).

Definition select (attributes : list string) : M BaseEntity unit :=
  newAttributes <-
    mapM (fun attr =>
            let attributeName := attr in
            call (Validator.validateAttributeName attributeName) ;;
            ret (mkAttribute attributeName None None))
         attributes ;;
  modify (set_query (push_attributes newAttributes)).

Definition selectAs (attribute alias : string) : M BaseEntity unit :=
  let attributeName := attribute in
  call (Validator.validateAttributeName attributeName) ;;
  call (Validator.validateAttributeName alias) ;;
  modify (set_query
            (push_attributes [mkAttribute attributeName (Some alias) None])).

Definition addAggregate (aggregate : string) (attribute : option string)
  (alias : option string) : M BaseEntity unit :=
  validAggregate <- call (Validator.validateAggregateType aggregate) ;;
  this <- get ;;
  let attributeName :=
    if JS.truthy_opt_string attribute
    then default EmptyString attribute
    else (entityName this ++ "id")%string in
  when (JS.truthy_opt_string attribute)
       (call (Validator.validateAttributeName attributeName)) ;;
  modify (set_query
            (push_attributes
               [mkAttribute attributeName alias (Some validAggregate)])).

Definition count (attribute alias : option string) : M BaseEntity unit :=
  addAggregate "count" attribute alias.

Definition sum (attribute alias : option string) : M BaseEntity unit :=
  addAggregate "sum" attribute alias.

Definition avg (attribute alias : option string) : M BaseEntity unit :=
  addAggregate "avg" attribute alias.

Definition min (attribute alias : option string) : M BaseEntity unit :=
  addAggregate "min" attribute alias.

Definition max (attribute alias : option string) : M BaseEntity unit :=
  addAggregate "max" attribute alias.

Definition where_ (attribute operator : string) (value : JS.value)
  : M BaseEntity unit :=
  let attributeName := attribute in
  call (Validator.validateAttributeName attributeName) ;;
  validOperator <- call (Validator.validateFilterOperator operator) ;;
  let condition := mkFilterCondition attributeName validOperator value in
  this <- get ;;
  when (is_undefined (filters (query this)))
       (modify (set_query (set_filters (Some (mkFilterGroup "and" []))))) ;;
  modify (set_query (fun x => set_filters (filters_push condition (filters x)) x)).

Definition orderBy (attribute : string) (order : option string)
  : M BaseEntity unit :=
  let order := default "asc"%string order in
  let attributeName := attribute in
  call (Validator.validateAttributeName attributeName) ;;
  validOrder <- call (Validator.validateOrderType order) ;;
  this <- get ;;
  when (is_undefined (orders (query this)))
       (modify (set_query (set_orders (Some [])))) ;;
  modify (set_query
            (fun x =>
               set_orders (opt_push (mkOrderBy attributeName validOrder)
                                    (orders x)) x)).

Definition top (count : JS.number) : M BaseEntity unit :=
  call (Validator.validateTop count) ;;
  modify (set_query (set_top (Some count))).

Definition page (pageNumber : JS.number) (pageSize : option JS.number)
  : M BaseEntity unit :=
  let pageSize := default (JS.Num 50) pageSize in
  call (Validator.validatePagination pageNumber pageSize) ;;
  modify (set_query (set_page (Some pageNumber))) ;;
  modify (set_query (set_count (Some pageSize))).

Definition distinct : M BaseEntity unit :=
  modify (set_query (set_distinct (Some true))).

Definition groupBy (attribute : string) : M BaseEntity unit :=
  let attributeName := attribute in
  call (Validator.validateAttributeName attributeName) ;;
  ret tt.

Definition join (entityName fromAttribute toAttribute : string)
  (alias linkType : option string) : M BaseEntity JoinBuilderRef :=
  call (Validator.validateEntityName entityName) ;;
  call (Validator.validateAttributeName fromAttribute) ;;
  call (Validator.validateAttributeName toAttribute) ;;
  let link :=
    mkLinkEntity entityName fromAttribute toAttribute alias linkType
      [] None None in
  this <- get ;;
  when (is_undefined (links (query this)))
       (modify (set_query (set_links (Some [])))) ;;
  modify (set_query (fun x => set_links (opt_push link (links x)) x)) ;;
  this <- get ;;
  ret (mkJoinBuilderRef (Nat.pred (length (default [] (links (query this)))))).

Definition build : M BaseEntity string :=
  this <- get ;;
  ret (FetchXMLBuilder.build (query this)).

(** A join builder method, run on the link the builder [jb] is bound to
    inside the parent's query: the method's writes land in the query, also
    when it throws afterwards.  A builder that [join] returned always finds
    its link; [None] stands for a position that holds none. *)
Definition on_link {A} (jb : JoinBuilderRef) (m : M LinkEntity A)
  : M BaseEntity (option A) :=
  this <- get ;;
  match nth_error (default [] (links (query this))) (link jb) with
  | Some l =>
      let '(r, l') := m l in
      modify (set_query
                (fun x =>
                   set_links
                     (option_map (update_nth (link jb) (fun _ => l'))
                                 (links x)) x)) ;;
      a <- call r ;;
      ret (Some a)
  | None => ret None
  end.

(** [jb.end()] hands the parent back; the store is untouched. *)
Definition end_ (jb : JoinBuilderRef) : M BaseEntity unit := ret tt.

End BaseEntity.

(** ** Definitions the properties are stated with *)

(** The escaped text of one character. *)
Definition escapeChar (c : ascii) : string :=
  if Ascii.eqb c "&" then "&amp;"
  else if Ascii.eqb c "<" then "&lt;"
  else if Ascii.eqb c ">" then "&gt;"
  else if Ascii.eqb c JS.dquote then "&quot;"
  else if Ascii.eqb c "'" then "&#39;"
  else String c EmptyString.

Fixpoint string_forallb (p : ascii -> bool) (s : string) : bool :=
  match s with
  | EmptyString => true
  | String c t => p c && string_forallb p t
  end.

(** Empty or made of white space only. *)
Definition whitespace_only (s : string) : bool :=
  string_forallb JS.isWhiteSpace s.

(** No double quote inside. *)
Definition quote_free (s : string) : bool :=
  string_forallb (fun c => negb (Ascii.eqb c JS.dquote)) s.

(** One rendered attribute or nested element, on its own. *)
Definition renderAttribute (attr : Attribute) : string :=
  FetchXMLBuilder.appendAttribute EmptyString attr.

Definition renderEntry (e : FilterEntry) : string :=
  match e with
  | EGroup g => FetchXMLBuilder.buildFilter g
  | ECondition c => FetchXMLBuilder.buildCondition c
  end.

Definition opt_render {A} (f : A -> string) (o : option A) : string :=
  match o with
  | Some a => f a
  | None => EmptyString
  end.

(** The texts of the elements of a list, one after the other in list
    order. *)
Fixpoint concat_map {A} (f : A -> string) (l : list A) : string :=
  match l with
  | [] => EmptyString
  | x :: t => f x ++ concat_map f t
  end.

(** The opening tag of a link entity, as [buildLinkEntity] writes it. *)
Definition linkOpenTag (l : LinkEntity) : string :=
  "<link-entity"
    ++ " name=" ++ JS.q ++ FetchXMLBuilder.escapeXml (link_name l) ++ JS.q
    ++ " from=" ++ JS.q ++ FetchXMLBuilder.escapeXml (link_from l) ++ JS.q
    ++ " to=" ++ JS.q ++ FetchXMLBuilder.escapeXml (link_to l) ++ JS.q
    ++ (if JS.truthy_opt_string (link_alias l)
        then " alias=" ++ JS.q
               ++ FetchXMLBuilder.escapeXml (default EmptyString (link_alias l))
               ++ JS.q
        else EmptyString)
    ++ (if JS.truthy_opt_string (link_linkType l)
        then " link-type=" ++ JS.q ++ default EmptyString (link_linkType l)
               ++ JS.q
        else EmptyString)
    ++ ">".

(** *** A plain reader for the attributes of one rendered element

    It reads the tag name, then [ key=(quote)text(quote)] groups up to the
    closing [/>], and unescapes each text with the reference unescaper.  It
    takes the text between the quotes as it stands: it checks no
    well-formedness and normalises no white space (see [XmlStrict] for a
    reader that does). *)

Module XmlReader.

Fixpoint read_until (stop : ascii) (s : string) : option (string * string) :=
  match s with
  | EmptyString => None
  | String c t =>
      if Ascii.eqb c stop then Some (EmptyString, t)
      else
        match read_until stop t with
        | Some (a, r) => Some (String c a, r)
        | None => None
        end
  end.

Fixpoint read_attributes (fuel : nat) (s : string)
  : option (list (string * string)) :=
  match fuel with
  | O => None
  | S n =>
      if (s =? "/>")%string then Some []
      else
        match s with
        | String sp t =>
            if Ascii.eqb sp " " then
              match read_until "=" t with
              | Some (k, String d t1) =>
                  if Ascii.eqb d JS.dquote then
                    match read_until JS.dquote t1 with
                    | Some (v, t2) =>
                        option_map (cons (k, XmlRef.unescapeXml v))
                                   (read_attributes n t2)
                    | None => None
                    end
                  else None
              | _ => None
              end
            else None
        | EmptyString => None
        end
  end.

Fixpoint strip_prefix (p s : string) : option string :=
  match p, s with
  | EmptyString, _ => Some s
  | String a p', String b s' =>
      if Ascii.eqb a b then strip_prefix p' s' else None
  | String _ _, EmptyString => None
  end.

(** The attributes of the self-closing element [<tag .../>] that [s]
    consists of, in document order. *)
Definition element_attributes (tag : string) (s : string)
  : option (list (string * string)) :=
  match strip_prefix ("<" ++ tag) s with
  | Some rest => read_attributes (String.length s) rest
  | None => None
  end.

End XmlReader.

(** *** The builder operations as data *)

Inductive AggregateMethod : Type := Count | Sum | Avg | Min | Max.

Definition aggregate_text (m : AggregateMethod) : string :=
  match m with
  | Count => "count"
  | Sum => "sum"
  | Avg => "avg"
  | Min => "min"
  | Max => "max"
  end.

Definition aggregate_call (m : AggregateMethod)
  : option string -> option string -> M BaseEntity unit :=
  match m with
  | Count => BaseEntity.count
  | Sum => BaseEntity.sum
  | Avg => BaseEntity.avg
  | Min => BaseEntity.min
  | Max => BaseEntity.max
  end.

Inductive BuilderCall : Type :=
| CallSelect (attributes : list string)
| CallSelectAs (attribute alias : string)
| CallAggregate (m : AggregateMethod) (attribute alias : option string)
| CallWhere (attribute operator : string) (value : JS.value)
| CallOrderBy (attribute : string) (order : option string)
| CallTop (count : JS.number)
| CallPage (pageNumber : JS.number) (pageSize : option JS.number)
| CallJoin (entityName fromAttribute toAttribute : string)
    (alias linkType : option string).

Definition perform (c : BuilderCall) : M BaseEntity unit :=
  match c with
  | CallSelect attributes => BaseEntity.select attributes
  | CallSelectAs attribute alias => BaseEntity.selectAs attribute alias
  | CallAggregate m attribute alias => aggregate_call m attribute alias
  | CallWhere attribute operator value =>
      BaseEntity.where_ attribute operator value
  | CallOrderBy attribute order => BaseEntity.orderBy attribute order
  | CallTop count => BaseEntity.top count
  | CallPage pageNumber pageSize => BaseEntity.page pageNumber pageSize
  | CallJoin entityName fromAttribute toAttribute alias linkType =>
      bind (BaseEntity.join entityName fromAttribute toAttribute alias linkType)
           (fun _ => ret tt)
  end.

(** The condition list of the query's filter tree, empty when there is
    none. *)
Definition query_conditions (x : FetchQuery) : list FilterEntry :=
  match filters x with
  | Some f => filter_conditions f
  | None => []
  end.

(** What a successful [where] leaves in the [filters] field: the condition
    at the end of the existing group, or alone in a fresh [and] group. *)
Definition add_condition (c : FilterCondition) (fs : option FilterGroup)
  : FilterGroup :=
  match fs with
  | Some (mkFilterGroup t cs) => mkFilterGroup t (cs ++ [ECondition c])
  | None => mkFilterGroup "and" [ECondition c]
  end.

(** The attribute [select] appends for one name. *)
Definition plainAttribute (name : string) : Attribute :=
  mkAttribute name None None.

Definition all_valid_names (l : list string) : bool :=
  forallb (fun a => negb (Validator.invalid_name a)) l.

Definition attributeNameError : Error :=
  ValidationError "Attribute name cannot be empty" "attribute".

Definition entityNameError : Error :=
  ValidationError "Entity name cannot be empty" "entityName".

(** ** Further definitions: the rest of the fluent surface and what the
    remaining properties are stated with *)

(** *** Error objects (src/errors/index.ts): the fields the classes set *)

Definition error_code (e : Error) : string :=
  match e with
  | ValidationError _ _ => "VALIDATION_ERROR"
  | QueryBuildError _ => "QUERY_BUILD_ERROR"
  end.

Definition error_field (e : Error) : option string :=
  match e with
  | ValidationError _ f => Some f
  | QueryBuildError _ => None
  end.

(** *** What a call checks and what it writes *)

Definition operatorError (operator : string) : Error :=
  ValidationError ("Invalid filter operator: " ++ operator) "operator".

Definition orderError (order : string) : Error :=
  ValidationError ("Invalid order type: " ++ order) "order".

Definition topError : Error :=
  ValidationError "Top value must be between 1 and 5000" "top".

Definition pageError : Error :=
  ValidationError "Page number must be greater than 1" "page".

Definition countError : Error :=
  ValidationError "Page count must be between 1 and 5000" "count".

(** In 1..5000. *)
Definition in_range (n : JS.number) : bool :=
  match n with
  | JS.Num z => (1 <=? z) && (z <=? 5000)
  | _ => false
  end.

(** The test [validateTop] and the second test of [validatePagination]
    make: below 1 or above 5000, as the comparisons of numbers see it. *)
Definition refused (n : JS.number) : bool :=
  JS.ltb n 1 || JS.gtb n 5000.

(** The error a call throws, read off its arguments alone; [None] when
    every check passes. *)
Definition call_error (c : BuilderCall) : option Error :=
  match c with
  | CallSelect xs =>
      if all_valid_names xs then None else Some attributeNameError
  | CallSelectAs a al =>
      if Validator.invalid_name a then Some attributeNameError
      else if Validator.invalid_name al then Some attributeNameError
      else None
  | CallAggregate _ a _ =>
      match a with
      | Some s =>
          if JS.truthy_string s && Validator.invalid_name s
          then Some attributeNameError else None
      | None => None
      end
  | CallWhere a op _ =>
      if Validator.invalid_name a then Some attributeNameError
      else if Validator.includes Validator.validOperators op then None
      else Some (operatorError op)
  | CallOrderBy a o =>
      if Validator.invalid_name a then Some attributeNameError
      else if Validator.includes Validator.validOrders (default "asc" o)
      then None
      else Some (orderError (default "asc" o))
  | CallTop n => if refused n then Some topError else None
  | CallPage p s =>
      if JS.ltb p 1 then Some pageError
      else if refused (default (JS.Num 50) s) then Some countError
      else None
  | CallJoin e f t _ _ =>
      if Validator.invalid_name e then Some entityNameError
      else if Validator.invalid_name f then Some attributeNameError
      else if Validator.invalid_name t then Some attributeNameError
      else None
  end.

(** The name an aggregate call gives its attribute. *)
Definition aggregate_name (this : BaseEntity) (a : option string) : string :=
  match a with
  | Some s => if JS.truthy_string s then s else entityName this ++ "id"
  | None => entityName this ++ "id"
  end.

(** The query after a call that passed its checks. *)
Definition call_effect (c : BuilderCall) (this : BaseEntity) : FetchQuery :=
  let x := query this in
  match c with
  | CallSelect xs => push_attributes (map plainAttribute xs) x
  | CallSelectAs a al => push_attributes [mkAttribute a (Some al) None] x
  | CallAggregate m a al =>
      push_attributes
        [mkAttribute (aggregate_name this a) al (Some (aggregate_text m))] x
  | CallWhere a op v =>
      set_filters (Some (add_condition (mkFilterCondition a op v) (filters x)))
        x
  | CallOrderBy a o =>
      set_orders
        (Some (default [] (orders x) ++ [mkOrderBy a (default "asc" o)])%list)
        x
  | CallTop n => set_top (Some n) x
  | CallPage p s =>
      set_count (Some (default (JS.Num 50) s)) (set_page (Some p) x)
  | CallJoin e f t al k =>
      set_links
        (Some (default [] (links x)
                 ++ [mkLinkEntity e f t al k [] None None])%list) x
  end.

(** The field of the query a call writes to. *)
Inductive Slot : Type :=
| SlotAttributes | SlotFilters | SlotOrders | SlotTop | SlotPaging | SlotLinks.

Definition slot_of (c : BuilderCall) : Slot :=
  match c with
  | CallSelect _ | CallSelectAs _ _ | CallAggregate _ _ _ => SlotAttributes
  | CallWhere _ _ _ => SlotFilters
  | CallOrderBy _ _ => SlotOrders
  | CallTop _ => SlotTop
  | CallPage _ _ => SlotPaging
  | CallJoin _ _ _ _ _ => SlotLinks
  end.

Definition Slot_eqb (a b : Slot) : bool :=
  match a, b with
  | SlotAttributes, SlotAttributes | SlotFilters, SlotFilters
  | SlotOrders, SlotOrders | SlotTop, SlotTop | SlotPaging, SlotPaging
  | SlotLinks, SlotLinks => true
  | _, _ => false
  end.

(** The field names a call's error may carry. *)
Definition error_fields (c : BuilderCall) : list string :=
  match c with
  | CallSelect _ | CallSelectAs _ _ | CallAggregate _ _ _ => ["attribute"]
  | CallWhere _ _ _ => ["attribute"; "operator"]
  | CallOrderBy _ _ => ["attribute"; "order"]
  | CallTop _ => ["top"]
  | CallPage _ _ => ["page"; "count"]
  | CallJoin _ _ _ _ _ => ["entityName"; "attribute"]
  end.

(** *** The join builder's methods as data *)

Inductive JoinCall : Type :=
| JoinSelect (attributes : list string)
| JoinSelectAs (attribute alias : string)
| JoinWhere (attribute operator : string) (value : JS.value).

Definition perform_join (c : JoinCall) : M LinkEntity unit :=
  match c with
  | JoinSelect attributes => JoinBuilder.select attributes
  | JoinSelectAs attribute alias => JoinBuilder.selectAs attribute alias
  | JoinWhere attribute operator value =>
      JoinBuilder.where_ attribute operator value
  end.

(** One step of a fluent chain: a call on the entity builder, [distinct],
    [groupBy], or a call on a join builder obtained earlier. *)
Inductive Step : Type :=
| StepCall (c : BuilderCall)
| StepDistinct
| StepGroupBy (attribute : string)
| StepJoinCall (jb : JoinBuilderRef) (c : JoinCall).

Definition step (s : Step) : M BaseEntity unit :=
  match s with
  | StepCall c => perform c
  | StepDistinct => BaseEntity.distinct
  | StepGroupBy a => BaseEntity.groupBy a
  | StepJoinCall jb c =>
      bind (BaseEntity.on_link jb (perform_join c)) (fun _ => ret tt)
  end.

(** The builder after a chain of steps in which the caller catches every
    error and goes on. *)
Definition after_steps (l : list Step) (this : BaseEntity) : BaseEntity :=
  fold_left (fun b s => store (step s b)) l this.

(** *** Validity of what the builders store *)

Definition valid_name (s : string) : bool := negb (Validator.invalid_name s).

(** An attribute as the builders insert it: a valid name; a plain
    attribute's alias, when there is one, is a valid name too; an aggregate
    is one of the six. *)
Definition valid_attribute (a : Attribute) : bool :=
  valid_name (attr_name a)
  && match attr_aggregate a with
     | Some g => Validator.includes Validator.validAggregates g
     | None =>
         match attr_alias a with
         | Some al => valid_name al
         | None => true
         end
     end.

Definition valid_entry (e : FilterEntry) : bool :=
  match e with
  | ECondition c =>
      valid_name (cond_attribute c)
      && Validator.includes Validator.validOperators (cond_operator c)
  | EGroup _ => false
  end.

(** A filter tree as [where] builds it: one [and] group of checked
    conditions, no nested group. *)
Definition flat_and_group (f : FilterGroup) : bool :=
  (filter_type f =? "and")%string && forallb valid_entry (filter_conditions f).

Definition valid_order (o : OrderBy) : bool :=
  valid_name (order_attribute o)
  && Validator.includes Validator.validOrders (order_order o).

Definition opt_forall {A} (p : A -> bool) (o : option A) : bool :=
  match o with
  | Some a => p a
  | None => true
  end.

(** A link as [join] and the join builder leave it: checked names, plain
    checked attributes, a flat filter tree, and no nested link. *)
Definition valid_link (l : LinkEntity) : bool :=
  valid_name (link_name l) && valid_name (link_from l)
  && valid_name (link_to l)
  && forallb (fun a => valid_attribute a && is_undefined (attr_aggregate a))
       (link_attributes l)
  && opt_forall flat_and_group (link_filters l)
  && is_undefined (link_links l).

Definition at_least_one (n : JS.number) : bool :=
  match n with
  | JS.Num z => 1 <=? z
  | JS.Infinity => true
  | _ => false
  end.

Definition valid_paging (p c : option JS.number) : bool :=
  match p, c with
  | None, None => true
  | Some p, Some c => at_least_one p && in_range c
  | _, _ => false
  end.

Definition valid_query (x : FetchQuery) : bool :=
  forallb valid_attribute (attributes x)
  && opt_forall flat_and_group (filters x)
  && opt_forall (forallb valid_order) (orders x)
  && opt_forall (forallb valid_link) (links x)
  && opt_forall in_range (top x)
  && valid_paging (page x) (count x)
  && opt_forall (fun d => d) (distinct x).

(** *** Closed form of the document *)

Definition numberAttribute (k : string) (o : option JS.number) : string :=
  match o with
  | Some n =>
      if JS.truthy_number n
      then " " ++ k ++ "=" ++ JS.q ++ JS.number_toString n ++ JS.q
      else EmptyString
  | None => EmptyString
  end.

Definition renderOrder (o : OrderBy) : string :=
  FetchXMLBuilder.appendOrder EmptyString o.

(** None of the five characters the renderer escapes. *)
Definition is_reserved (c : ascii) : bool :=
  Ascii.eqb c "&" || Ascii.eqb c "<" || Ascii.eqb c ">"
  || Ascii.eqb c JS.dquote || Ascii.eqb c "'".

Definition reserved_free (s : string) : bool :=
  string_forallb (fun c => negb (is_reserved c)) s.

(** No markup character: the ampersand apart, none of the reserved ones. *)
Definition markup_free (s : string) : bool :=
  string_forallb
    (fun c => negb (Ascii.eqb c "<" || Ascii.eqb c ">"
                    || Ascii.eqb c JS.dquote || Ascii.eqb c "'")) s.

(** *** The join builder's calls next to the entity builder's *)

(** The entity builder call with the same name and arguments. *)
Definition as_builder_call (c : JoinCall) : BuilderCall :=
  match c with
  | JoinSelect xs => CallSelect xs
  | JoinSelectAs a al => CallSelectAs a al
  | JoinWhere a op v => CallWhere a op v
  end.

(** The link after a join builder call that passed its checks. *)
Definition link_effect (c : JoinCall) (l : LinkEntity) : LinkEntity :=
  match c with
  | JoinSelect xs => link_push_attributes (map plainAttribute xs) l
  | JoinSelectAs a al =>
      link_push_attributes [mkAttribute a (Some al) None] l
  | JoinWhere a op v =>
      link_set_filters
        (Some (add_condition (mkFilterCondition a op v) (link_filters l))) l
  end.

Definition link_conditions (l : LinkEntity) : list FilterEntry :=
  match link_filters l with
  | Some f => filter_conditions f
  | None => []
  end.

(** The outcome of a join builder method run through [on_link]. *)
Definition lift_outcome {A} (r : result A) : result (option A) :=
  match r with
  | Ok a => Ok (Some a)
  | Throw e => Throw e
  end.

(** *** The logger (src/logger/index.ts)

    The wrapper around the logging library: its own [config] and, of the
    library's logger object, the two fields the wrapper writes, [level] and
    [silent].  The four log methods hand their arguments to the library and
    are not modelled.  The store of [getInstance] is the static [instance]
    field. *)

Inductive LogLevel : Type := LevelError | LevelWarn | LevelInfo | LevelDebug.

Record LoggerConfig : Type := mkLoggerConfig {
  level : LogLevel;
  enabled : bool
}.

(** [Partial<LoggerConfig>]: each key present or not. *)
Record PartialLoggerConfig : Type := mkPartialLoggerConfig {
  partial_level : option LogLevel;
  partial_enabled : option bool
}.

Record Logger : Type := mkLogger {
  config : LoggerConfig;
  logger_level : LogLevel;
  logger_silent : bool
}.

Module LoggerClass.

(** The constructor, with its default configuration. *)
Definition new (config : option LoggerConfig) : Logger :=
  let config := default (mkLoggerConfig LevelInfo true) config in
  mkLogger config (level config) (negb (enabled config)).

Definition getInstance (config : option LoggerConfig)
  : M (option Logger) Logger :=
  bind get (fun instance =>
  bind (when (is_undefined instance)
             (modify (fun _ => Some (new config)))) (fun _ =>
  bind get (fun instance =>
  ret (default (new config) instance)))).

(** [{ ...this.config, ...config }] *)
Definition spread (old : LoggerConfig) (p : PartialLoggerConfig)
  : LoggerConfig :=
  mkLoggerConfig (default (level old) (partial_level p))
                 (default (enabled old) (partial_enabled p)).

Definition updateConfig (p : PartialLoggerConfig) : M Logger unit :=
  bind (modify (fun this =>
          mkLogger (spread (config this) p) (logger_level this)
                   (logger_silent this))) (fun _ =>
  bind (modify (fun this =>
          mkLogger (config this) (level (config this))
                   (logger_silent this))) (fun _ =>
  modify (fun this =>
            mkLogger (config this) (logger_level this)
                     (negb (enabled (config this)))))).

End LoggerClass.

(** The library's logger follows the wrapper's configuration. *)
Definition logger_in_sync (l : Logger) : Prop :=
  logger_level l = level (config l)
  /\ logger_silent l = negb (enabled (config l)).

(** *** What the checks let through

    The range checks compare with [<] and [>], which are both false on NaN:
    what they let through is a number in range or NaN. *)

Definition not_NaN (n : JS.number) : bool :=
  match n with
  | JS.NaN => false
  | _ => true
  end.

Definition checked_paging (p c : option JS.number) : bool :=
  match p, c with
  | None, None => true
  | Some p, Some c => negb (JS.ltb p 1) && negb (refused c)
  | _, _ => false
  end.

(** As [valid_query], with the number fields held to what the checks let
    through. *)
Definition checked_query (x : FetchQuery) : bool :=
  forallb valid_attribute (attributes x)
  && opt_forall flat_and_group (filters x)
  && opt_forall (forallb valid_order) (orders x)
  && opt_forall (forallb valid_link) (links x)
  && opt_forall (fun n => negb (refused n)) (top x)
  && checked_paging (page x) (count x)
  && opt_forall (fun d => d) (distinct x).

(** No NaN among the number fields of a query, respectively among the
    number arguments of a step. *)
Definition finite_numbers (x : FetchQuery) : bool :=
  opt_forall not_NaN (top x) && opt_forall not_NaN (page x)
  && opt_forall not_NaN (count x).

Definition step_without_NaN (s : Step) : bool :=
  match s with
  | StepCall (CallTop n) => not_NaN n
  | StepCall (CallPage p s) => not_NaN p && not_NaN (default (JS.Num 50) s)
  | _ => true
  end.

(** *** A strict reader of rendered elements

    The reader above takes the text between the quotes as it stands.  An
    XML processor does more: it refuses a document that holds a character
    XML does not allow, a less-than sign or an ampersand that starts no
    reference inside an attribute value, or the same attribute twice; and
    it normalises an attribute value, turning a line break (CR LF, CR or LF)
    and a TAB that stand in the document as such into one space.  This
    reader does that for the elements the renderer writes; it knows the five
    predefined entities and the apostrophe's character reference, and
    refuses what it does not know. *)

Module XmlStrict.

Definition TAB : ascii := ascii_of_nat 9.
Definition LF : ascii := ascii_of_nat 10.
Definition CR : ascii := ascii_of_nat 13.

(** The characters XML 1.0 allows in no document: the controls below
    U+0020 other than TAB, LF and CR. *)
Definition is_forbidden (c : ascii) : bool :=
  (nat_of_ascii c <? 32)%nat
  && negb (Ascii.eqb c TAB || Ascii.eqb c LF || Ascii.eqb c CR).

Definition starts_with_LF (s : string) : bool :=
  match s with
  | String c _ => Ascii.eqb c LF
  | EmptyString => false
  end.

Definition cons_char (c : ascii) (o : option string) : option string :=
  option_map (String c) o.

(** The value of an attribute whose text between the quotes is [s]. *)
Fixpoint attribute_value_from (skip : nat) (s : string) : option string :=
  match s with
  | EmptyString => Some EmptyString
  | String c t =>
      match skip with
      | S k => attribute_value_from k t
      | O =>
          if Ascii.eqb c "&" then
            match XmlRef.entity_at s with
            | Some (d, k) => cons_char d (attribute_value_from k t)
            | None => None
            end
          else if Ascii.eqb c "<" then None
          else if is_forbidden c then None
          else if Ascii.eqb c CR then
            if starts_with_LF t then attribute_value_from O t
            else cons_char " " (attribute_value_from O t)
          else if Ascii.eqb c LF || Ascii.eqb c TAB then
            cons_char " " (attribute_value_from O t)
          else cons_char c (attribute_value_from O t)
      end
  end.

Definition attribute_value (s : string) : option string :=
  attribute_value_from O s.

(** A string as an XML processor hands it on when it stood unescaped in an
    attribute value: line breaks and TABs have become spaces. *)
Fixpoint normalised (s : string) : string :=
  match s with
  | EmptyString => EmptyString
  | String c t =>
      if Ascii.eqb c CR then
        if starts_with_LF t then normalised t
        else String " " (normalised t)
      else if Ascii.eqb c LF || Ascii.eqb c TAB then String " " (normalised t)
      else String c (normalised t)
  end.

(** Attribute names as the renderer writes them: lower-case letters and
    the hyphen. *)
Definition name_char (c : ascii) : bool :=
  let n := nat_of_ascii c in
  ((97 <=? n)%nat && (n <=? 122)%nat) || Ascii.eqb c "-".

Definition is_name (k : string) : bool :=
  negb (k =? EmptyString)%string && string_forallb name_char k.

Fixpoint read_attributes (fuel : nat) (s : string)
  : option (list (string * string)) :=
  match fuel with
  | O => None
  | S n =>
      if (s =? "/>")%string then Some []
      else
        match s with
        | String sp t =>
            if Ascii.eqb sp " " then
              match XmlReader.read_until "=" t with
              | Some (k, String d t1) =>
                  if Ascii.eqb d JS.dquote && is_name k then
                    match XmlReader.read_until JS.dquote t1 with
                    | Some (raw, t2) =>
                        match attribute_value raw with
                        | Some v =>
                            option_map (cons (k, v)) (read_attributes n t2)
                        | None => None
                        end
                    | None => None
                    end
                  else None
              | _ => None
              end
            else None
        | EmptyString => None
        end
  end.

Fixpoint distinct_keys (l : list (string * string)) : bool :=
  match l with
  | [] => true
  | (k, _) :: t =>
      negb (existsb (fun kv => (fst kv =? k)%string) t) && distinct_keys t
  end.

(** The attributes of the self-closing element [<tag .../>] that [s]
    consists of, or [None] when [s] is not such an element, well formed. *)
Definition element_attributes (tag : string) (s : string)
  : option (list (string * string)) :=
  match XmlReader.strip_prefix ("<" ++ tag) s with
  | Some rest =>
      match read_attributes (String.length s) rest with
      | Some l => if distinct_keys l then Some l else None
      | None => None
      end
  | None => None
  end.

End XmlStrict.

(** Every character is allowed in an XML document. *)
Definition xml_text (s : string) : bool :=
  string_forallb (fun c => negb (XmlStrict.is_forbidden c)) s.

(** No control character below U+0020 at all. *)
Definition control_free (s : string) : bool :=
  string_forallb (fun c => (32 <=? nat_of_ascii c)%nat) s.

(** * Properties *)

(** ** Strings *)

Section StringFacts.

Lemma append_nil_r (s : string) : s ++ EmptyString = s.
Proof. induction s as [|c s IH]; simpl; [reflexivity | now rewrite IH]. Qed.

Lemma append_assoc (a b c : string) : (a ++ b) ++ c = a ++ (b ++ c).
Proof. induction a as [|x a IH]; simpl; [reflexivity | now rewrite IH]. Qed.

Lemma replaceAll_app (c : ascii) (r a b : string) :
  JS.replaceAll c r (a ++ b) = JS.replaceAll c r a ++ JS.replaceAll c r b.
Proof.
  induction a as [|x a IH]; simpl; [reflexivity |].
  destruct (Ascii.eqb x c); rewrite IH; [now rewrite append_assoc | reflexivity].
Qed.

End StringFacts.

(** ** Escaping *)

Section Escaping.
Import FetchXMLBuilder.

Lemma escapeXml_nil : escapeXml EmptyString = EmptyString.
Proof. reflexivity. Qed.

(** The five chained replacements act character by character: the
    replacement texts contain none of the characters replaced later,
    except that the ampersand goes first. *)
Lemma escapeXml_cons (c : ascii) (s : string) :
  escapeXml (String c s) = escapeChar c ++ escapeXml s.
Proof.
  unfold escapeXml, escapeChar. cbn [JS.replaceAll].
  destruct (Ascii.eqb_spec c "&") as [->|Hamp].
  { rewrite !replaceAll_app. reflexivity. }
  cbn [JS.replaceAll].
  destruct (Ascii.eqb_spec c "<") as [->|Hlt].
  { rewrite !replaceAll_app. reflexivity. }
  cbn [JS.replaceAll].
  destruct (Ascii.eqb_spec c ">") as [->|Hgt].
  { rewrite !replaceAll_app. reflexivity. }
  cbn [JS.replaceAll].
  destruct (Ascii.eqb_spec c JS.dquote) as [->|Hdq].
  { rewrite !replaceAll_app. reflexivity. }
  cbn [JS.replaceAll].
  destruct (Ascii.eqb_spec c "'") as [->|Hap]; reflexivity.
Qed.

Lemma escapeXml_app (a b : string) :
  escapeXml (a ++ b) = escapeXml a ++ escapeXml b.
Proof.
  induction a as [|c a IH]; [reflexivity |].
  cbn [append]. rewrite !escapeXml_cons, IH, append_assoc. reflexivity.
Qed.

Lemma escapeChar_quote_free (c : ascii) : quote_free (escapeChar c) = true.
Proof.
  unfold escapeChar.
  destruct (Ascii.eqb c "&"); [reflexivity |].
  destruct (Ascii.eqb c "<"); [reflexivity |].
  destruct (Ascii.eqb c ">"); [reflexivity |].
  destruct (Ascii.eqb c JS.dquote) eqn:E; [reflexivity |].
  destruct (Ascii.eqb c "'"); [reflexivity |].
  unfold quote_free. cbn [string_forallb]. now rewrite E.
Qed.

Lemma string_forallb_app (p : ascii -> bool) (a b : string) :
  string_forallb p (a ++ b) = string_forallb p a && string_forallb p b.
Proof.
  induction a as [|c a IH]; cbn; [reflexivity |].
  now rewrite IH, andb_assoc.
Qed.

Lemma escapeXml_quote_free (s : string) : quote_free (escapeXml s) = true.
Proof.
  induction s as [|c s IH]; [reflexivity |].
  rewrite escapeXml_cons. pose proof (escapeChar_quote_free c) as Hc.
  unfold quote_free in *.
  now rewrite string_forallb_app, IH, Hc.
Qed.

End Escaping.

(** ** The reference unescaper undoes the escaping *)

Section RoundTrip.
Import FetchXMLBuilder XmlRef.

Lemma unescape_escapeChar (c : ascii) (rest : string) :
  unescape_from O (escapeChar c ++ rest) = String c (unescape_from O rest).
Proof.
  unfold escapeChar.
  destruct (Ascii.eqb_spec c "&") as [->|Hamp]; [reflexivity |].
  destruct (Ascii.eqb_spec c "<") as [->|Hlt]; [reflexivity |].
  destruct (Ascii.eqb_spec c ">") as [->|Hgt]; [reflexivity |].
  destruct (Ascii.eqb_spec c JS.dquote) as [->|Hdq]; [reflexivity |].
  destruct (Ascii.eqb_spec c "'") as [->|Hap]; [reflexivity |].
  cbn [append unescape_from].
  assert (E : entity_at (String c rest) = None).
  { unfold entity_at. cbn [starts_with].
    assert (Ascii.eqb "&" c = false) as ->
        by (rewrite Ascii.eqb_sym; now apply Ascii.eqb_neq).
    reflexivity. }
  now rewrite E.
Qed.

Lemma unescape_escapeXml_app (s rest : string) :
  unescape_from O (escapeXml s ++ rest) = s ++ unescape_from O rest.
Proof.
  induction s as [|c s IH]; [reflexivity |].
  rewrite escapeXml_cons, append_assoc, unescape_escapeChar, IH.
  reflexivity.
Qed.

Lemma unescapeXml_escapeXml (s : string) : unescapeXml (escapeXml s) = s.
Proof.
  unfold unescapeXml.
  rewrite <- (append_nil_r (escapeXml s)), unescape_escapeXml_app.
  cbn. apply append_nil_r.
Qed.

End RoundTrip.

(** C6. Escape then unescape is the identity: for every string, the text
    [escapeXml] produces, read back by the reference XML unescaper, is the
    original string; the five reserved characters are each sent to their
    entity on the way. *)
Theorem escape_unescape_roundtrip :
  (forall s : string,
      XmlRef.unescapeXml (FetchXMLBuilder.escapeXml s) = s)
  /\ FetchXMLBuilder.escapeXml "&" = "&amp;"
  /\ FetchXMLBuilder.escapeXml "<" = "&lt;"
  /\ FetchXMLBuilder.escapeXml ">" = "&gt;"
  /\ FetchXMLBuilder.escapeXml JS.q = "&quot;"
  /\ FetchXMLBuilder.escapeXml "'" = "&#39;".
Proof.
  split; [exact unescapeXml_escapeXml |].
  repeat split; reflexivity.
Qed.

(** ** Closed forms of the renderer's loops *)

(** Right-nest every append and run the appends whose left operand is a
    literal. *)
Ltac str_norm :=
  repeat (rewrite ?append_assoc, ?append_nil_r; cbn [append]).

Section Rendering.
Import FetchXMLBuilder.

Lemma fold_left_append {A} (g : string -> A -> string) (f : A -> string)
      (l : list A) :
  (forall xml x, g xml x = xml ++ f x) ->
  forall acc, fold_left g l acc = acc ++ concat_map f l.
Proof.
  intros Hg. induction l as [|x l IH]; intros acc; cbn [fold_left concat_map].
  - now rewrite append_nil_r.
  - now rewrite IH, Hg, append_assoc.
Qed.

Lemma appendAttribute_append (xml : string) (attr : Attribute) :
  appendAttribute xml attr = xml ++ renderAttribute attr.
Proof.
  unfold renderAttribute, appendAttribute.
  destruct (attr_alias attr) as [a|];
    [destruct (JS.truthy_string a) |];
    destruct (attr_aggregate attr) as [g|];
    str_norm; reflexivity.
Qed.

Lemma buildAttributes_closed (x : FetchQuery) :
  buildAttributes x = concat_map renderAttribute (attributes x).
Proof.
  unfold buildAttributes.
  now rewrite (fold_left_append _ renderAttribute _ appendAttribute_append).
Qed.

Lemma buildFilter_closed (t : string) (cs : list FilterEntry) :
  buildFilter (mkFilterGroup t cs)
  = "<filter type=" ++ JS.q ++ t ++ JS.q ++ ">"
      ++ concat_map renderEntry cs ++ "</filter>".
Proof.
  cbn [buildFilter].
  rewrite (fold_left_append _ renderEntry).
  - str_norm. reflexivity.
  - intros xml [c|g]; reflexivity.
Qed.

Lemma buildLinks_closed (ls : list LinkEntity) :
  buildLinks ls = concat_map buildLinkEntity ls.
Proof.
  unfold buildLinks.
  now rewrite (fold_left_append _ buildLinkEntity) by reflexivity.
Qed.

Lemma buildLinkEntity_closed (l : LinkEntity) :
  buildLinkEntity l
  = linkOpenTag l
      ++ concat_map renderAttribute (link_attributes l)
      ++ opt_render buildFilter (link_filters l)
      ++ concat_map buildLinkEntity (default [] (link_links l))
      ++ "</link-entity>".
Proof.
  destruct l as [n f t a k attrs fs ls].
  cbn [buildLinkEntity]. unfold linkOpenTag.
  cbn [link_name link_from link_to link_alias link_linkType link_attributes
       link_filters link_links JS.truthy_opt_string default opt_render].
  rewrite (fold_left_append _ renderAttribute _ appendAttribute_append).
  assert (Hls :
    forall xml,
      match ls with
      | Some ls0 =>
          fold_left (fun xml nl => xml ++ buildLinkEntity nl) ls0 xml
      | None => xml
      end = xml ++ concat_map buildLinkEntity (default [] ls)).
  { intros xml. destruct ls as [ls0|]; cbn [default concat_map].
    - now rewrite (fold_left_append _ buildLinkEntity) by reflexivity.
    - now rewrite append_nil_r. }
  rewrite Hls. clear Hls.
  destruct a as [a|]; destruct k as [k|]; destruct fs as [g|];
    cbn [JS.truthy_opt_string default opt_render];
    repeat match goal with
           | |- context [JS.truthy_string ?x] => destruct (JS.truthy_string x)
           end;
    str_norm; reflexivity.
Qed.

End Rendering.

(** ** What each builder call does to its store *)

Section BuilderRuns.
Local Open Scope js_scope.

Lemma mapM_names {S} (l : list string) (s : S) :
  mapM (fun attr =>
          let attributeName := attr in
          call (Validator.validateAttributeName attributeName) ;;
          ret (mkAttribute attributeName None None)) l s
  = (if all_valid_names l then Ok (map plainAttribute l)
     else Throw attributeNameError, s).
Proof.
  set (f := fun attr : string => _).
  assert (Hf : forall x (s0 : S),
             f x s0 = (if Validator.invalid_name x
                       then Throw attributeNameError
                       else Ok (plainAttribute x), s0)).
  { intros x s0. unfold f, bind, call, ret, Validator.validateAttributeName.
    destruct (Validator.invalid_name x); reflexivity. }
  clearbody f. revert s.
  induction l as [|a l IH]; intros s; [reflexivity |].
  cbn [mapM all_valid_names forallb map]. unfold bind at 1.
  rewrite Hf.
  destruct (Validator.invalid_name a); cbn [negb andb]; [reflexivity |].
  unfold bind at 1. rewrite IH. fold (all_valid_names l).
  destruct (all_valid_names l); reflexivity.
Qed.

Lemma link_select_run (xs : list string) (l : LinkEntity) :
  JoinBuilder.select xs l
  = if all_valid_names xs
    then (Ok tt, link_push_attributes (map plainAttribute xs) l)
    else (Throw attributeNameError, l).
Proof.
  unfold JoinBuilder.select. unfold bind at 1. rewrite mapM_names.
  destruct (all_valid_names xs); reflexivity.
Qed.

Lemma link_where_run (a op : string) (v : JS.value) (l : LinkEntity) :
  JoinBuilder.where_ a op v l
  = if Validator.invalid_name a then (Throw attributeNameError, l)
    else if negb (Validator.includes Validator.validOperators op)
    then (Throw (ValidationError ("Invalid filter operator: " ++ op)
                                 "operator"), l)
    else (Ok tt,
          link_set_filters
            (Some (add_condition (mkFilterCondition a op v) (link_filters l)))
            l).
Proof.
  unfold JoinBuilder.where_, bind, call, Validator.validateAttributeName,
    Validator.validateFilterOperator.
  destruct (Validator.invalid_name a); [reflexivity |].
  destruct (negb (Validator.includes Validator.validOperators op));
    [reflexivity |].
  destruct l as [n f t al k attrs [[ft cs]|] ls]; reflexivity.
Qed.

Lemma select_run (xs : list string) (this : BaseEntity) :
  BaseEntity.select xs this
  = if all_valid_names xs
    then (Ok tt, set_query (push_attributes (map plainAttribute xs)) this)
    else (Throw attributeNameError, this).
Proof.
  unfold BaseEntity.select. unfold bind at 1. rewrite mapM_names.
  destruct (all_valid_names xs); reflexivity.
Qed.

Lemma where_run (a op : string) (v : JS.value) (this : BaseEntity) :
  BaseEntity.where_ a op v this
  = if Validator.invalid_name a then (Throw attributeNameError, this)
    else if negb (Validator.includes Validator.validOperators op)
    then (Throw (ValidationError ("Invalid filter operator: " ++ op)
                                 "operator"), this)
    else (Ok tt,
          set_query
            (fun x =>
               set_filters
                 (Some (add_condition (mkFilterCondition a op v) (filters x)))
                 x)
            this).
Proof.
  unfold BaseEntity.where_, bind, call, Validator.validateAttributeName,
    Validator.validateFilterOperator.
  destruct (Validator.invalid_name a); [reflexivity |].
  destruct (negb (Validator.includes Validator.validOperators op));
    [reflexivity |].
  destruct this as [cls [e attrs [[ft cs]|] os ls d t p c]]; reflexivity.
Qed.

End BuilderRuns.

(** ** Link entities *)

(** C5. A link entity renders as its opening tag, then all of its own
    attributes, then its filter tree if it has one, then each nested link
    entity, then the closing tag; each category is rendered in list order.
    The order of the calls that filled the categories does not matter: a
    join builder's [select] and [where], when both succeed, leave the same
    link whichever came first, with the new attributes after the old ones
    and the new condition after the old ones; so a join followed by [where]
    then [select] builds the same document as one followed by [select] then
    [where], attribute first. *)
Theorem link_children_fixed_order :
  (forall l : LinkEntity,
      FetchXMLBuilder.buildLinkEntity l
      = linkOpenTag l
          ++ concat_map renderAttribute (link_attributes l)
          ++ opt_render FetchXMLBuilder.buildFilter (link_filters l)
          ++ concat_map FetchXMLBuilder.buildLinkEntity
               (default [] (link_links l))
          ++ "</link-entity>")
  /\ (forall (xs : list string) (a op : string) (v : JS.value)
             (l : LinkEntity),
         all_valid_names xs = true ->
         Validator.invalid_name a = false ->
         Validator.includes Validator.validOperators op = true ->
         let l' :=
           mkLinkEntity (link_name l) (link_from l) (link_to l) (link_alias l)
             (link_linkType l)
             (link_attributes l ++ map plainAttribute xs)
             (Some (add_condition (mkFilterCondition a op v) (link_filters l)))
             (link_links l) in
         bind (JoinBuilder.select xs) (fun _ => JoinBuilder.where_ a op v) l
         = (Ok tt, l')
         /\ bind (JoinBuilder.where_ a op v) (fun _ => JoinBuilder.select xs) l
            = (Ok tt, l'))
  /\ (let xml :=
        "<fetch><entity name=" ++ JS.q ++ "account" ++ JS.q ++ ">"
          ++ "<link-entity name=" ++ JS.q ++ "contact" ++ JS.q
          ++ " from=" ++ JS.q ++ "accountid" ++ JS.q
          ++ " to=" ++ JS.q ++ "parentcustomerid" ++ JS.q ++ ">"
          ++ "<attribute name=" ++ JS.q ++ "fullname" ++ JS.q ++ "/>"
          ++ "<filter type=" ++ JS.q ++ "and" ++ JS.q ++ ">"
          ++ "<condition attribute=" ++ JS.q ++ "statecode" ++ JS.q
          ++ " operator=" ++ JS.q ++ "eq" ++ JS.q
          ++ " value=" ++ JS.q ++ "0" ++ JS.q ++ "/>"
          ++ "</filter></link-entity></entity></fetch>" in
      outcome
        ((jb <- BaseEntity.join "contact" "accountid" "parentcustomerid"
                  None None ;;
          BaseEntity.on_link jb
            (JoinBuilder.where_ "statecode" "eq" (JS.VNumber 0)) ;;
          BaseEntity.on_link jb (JoinBuilder.select ["fullname"]) ;;
          BaseEntity.end_ jb ;;
          BaseEntity.build)%js (BaseEntity.new "account" "account"))
      = Ok xml
      /\ outcome
           ((jb <- BaseEntity.join "contact" "accountid" "parentcustomerid"
                     None None ;;
             BaseEntity.on_link jb (JoinBuilder.select ["fullname"]) ;;
             BaseEntity.on_link jb
               (JoinBuilder.where_ "statecode" "eq" (JS.VNumber 0)) ;;
             BaseEntity.end_ jb ;;
             BaseEntity.build)%js (BaseEntity.new "account" "account"))
         = Ok xml).
Proof.
  split; [exact buildLinkEntity_closed |].
  split; [| split; reflexivity].
  intros xs a op v l Hxs Ha Hop l'. subst l'.
  unfold bind.
  rewrite !link_select_run, !link_where_run, Hxs, Ha, Hop. cbn [negb].
  rewrite link_select_run, link_where_run, Hxs, Ha, Hop. cbn [negb].
  destruct l as [n f t al k attrs fs ls]. split; reflexivity.
Qed.

Lemma link_children_fixed_order_witness :
  let l := mkLinkEntity "contact" "accountid" "parentcustomerid" None None
             [plainAttribute "fullname"] None None in
  let l' := mkLinkEntity "contact" "accountid" "parentcustomerid" None None
              [plainAttribute "fullname"; plainAttribute "email"]
              (Some (mkFilterGroup "and"
                       [ECondition
                          (mkFilterCondition "statecode" "eq" (JS.VNumber 0))]))
              None in
  bind (JoinBuilder.select ["email"])
       (fun _ => JoinBuilder.where_ "statecode" "eq" (JS.VNumber 0)) l
  = (Ok tt, l')
  /\ bind (JoinBuilder.where_ "statecode" "eq" (JS.VNumber 0))
          (fun _ => JoinBuilder.select ["email"]) l
     = (Ok tt, l').
Proof.
  exact (proj1 (proj2 link_children_fixed_order) ["email"] "statecode" "eq"
           (JS.VNumber 0)
           (mkLinkEntity "contact" "accountid" "parentcustomerid" None None
              [plainAttribute "fullname"] None None)
           eq_refl eq_refl eq_refl).
Defined.

(** ** Reading a rendered condition back *)

Section ReaderFacts.
Import FetchXMLBuilder XmlReader.

Lemma read_until_free (stop : ascii) (v rest : string) :
  string_forallb (fun c => negb (Ascii.eqb c stop)) v = true ->
  read_until stop (v ++ String stop rest) = Some (v, rest).
Proof.
  induction v as [|c v IH]; cbn [append read_until string_forallb].
  - now rewrite Ascii.eqb_refl.
  - intros H. apply andb_true_iff in H as [Hc Hv].
    apply negb_true_iff in Hc. now rewrite Hc, (IH Hv).
Qed.

(** One [ key=(quote)text(quote)] group is read as the pair of the key
    and the unescaped text. *)
Lemma read_attributes_step (n : nat) (k v rest : string) :
  string_forallb (fun c => negb (Ascii.eqb c "=")) k = true ->
  quote_free v = true ->
  read_attributes (S n) (" " ++ k ++ "=" ++ JS.q ++ v ++ JS.q ++ rest)
  = option_map (cons (k, XmlRef.unescapeXml v)) (read_attributes n rest).
Proof.
  intros Hk Hv.
  change (" " ++ k ++ "=" ++ JS.q ++ v ++ JS.q ++ rest)
    with (String " " (k ++ String "=" (String JS.dquote
                                         (v ++ String JS.dquote rest)))).
  cbn [read_attributes].
  change (String " " ?x =? "/>")%string with false.
  cbn iota. rewrite Ascii.eqb_refl, (read_until_free _ _ _ Hk).
  rewrite Ascii.eqb_refl, (read_until_free _ _ _ Hv).
  reflexivity.
Qed.

Lemma read_attributes_end (n : nat) : read_attributes (S n) "/>" = Some [].
Proof. reflexivity. Qed.

Lemma strip_prefix_app (p s : string) : strip_prefix p (p ++ s) = Some s.
Proof.
  induction p as [|c p IH]; cbn [append strip_prefix]; [reflexivity |].
  now rewrite Ascii.eqb_refl.
Qed.

Lemma buildCondition_closed (c : FilterCondition) :
  buildCondition c
  = "<condition"
      ++ (" " ++ "attribute" ++ "=" ++ JS.q
              ++ escapeXml (cond_attribute c) ++ JS.q
      ++ (" " ++ "operator" ++ "=" ++ JS.q ++ cond_operator c ++ JS.q
      ++ (if JS.is_present (cond_value c)
          then " " ++ "value" ++ "=" ++ JS.q
                   ++ escapeXml (JS.toString (cond_value c)) ++ JS.q ++ "/>"
          else "/>"))).
Proof.
  unfold buildCondition.
  destruct (JS.is_present (cond_value c)); str_norm; reflexivity.
Qed.

Lemma valid_operator_plain (op : string) :
  Validator.includes Validator.validOperators op = true ->
  quote_free op = true /\ XmlRef.unescapeXml op = op.
Proof.
  unfold Validator.includes. intros H.
  apply existsb_exists in H as [x [Hin Heq]].
  apply String.eqb_eq in Heq. subst x.
  unfold Validator.validOperators in Hin. cbn [In] in Hin.
  repeat (destruct Hin as [<-|Hin]; [split; reflexivity |]).
  contradiction.
Qed.

Lemma condition_tail_attributes (n : nat) (c : FilterCondition) :
  Validator.includes Validator.validOperators (cond_operator c) = true ->
  read_attributes (S (S (S (S n))))
    (" " ++ "attribute" ++ "=" ++ JS.q
         ++ escapeXml (cond_attribute c) ++ JS.q
     ++ (" " ++ "operator" ++ "=" ++ JS.q ++ cond_operator c ++ JS.q
     ++ (if JS.is_present (cond_value c)
         then " " ++ "value" ++ "=" ++ JS.q
                  ++ escapeXml (JS.toString (cond_value c)) ++ JS.q ++ "/>"
         else "/>")))
  = Some ([("attribute", cond_attribute c);
           ("operator", cond_operator c)]
            ++ (if JS.is_present (cond_value c)
                then [("value", JS.toString (cond_value c))]
                else []))%list.
Proof.
  intros Hop. destruct (valid_operator_plain _ Hop) as [Hq Hu].
  rewrite read_attributes_step;
    [| reflexivity | apply escapeXml_quote_free].
  rewrite read_attributes_step; [| reflexivity | exact Hq].
  rewrite unescapeXml_escapeXml, Hu.
  destruct (JS.is_present (cond_value c)).
  - rewrite read_attributes_step;
      [| reflexivity | apply escapeXml_quote_free].
    rewrite unescapeXml_escapeXml. reflexivity.
  - reflexivity.
Qed.

Lemma condition_attributes (c : FilterCondition) :
  Validator.includes Validator.validOperators (cond_operator c) = true ->
  element_attributes "condition" (buildCondition c)
  = Some ([("attribute", cond_attribute c);
           ("operator", cond_operator c)]
            ++ (if JS.is_present (cond_value c)
                then [("value", JS.toString (cond_value c))]
                else []))%list.
Proof.
  intros Hop.
  unfold element_attributes. rewrite buildCondition_closed.
  rewrite strip_prefix_app.
  match goal with
  | |- read_attributes (String.length ("<condition" ++ ?r)) _ = _ =>
      change (String.length ("<condition" ++ r))
        with (S (S (S (S (6 + String.length r)))))
  end.
  now apply condition_tail_attributes.
Qed.

End ReaderFacts.

(** C3. A rendered condition carries a [value] attribute exactly when the
    condition's value is neither undefined nor null, and the attribute then
    holds the value's stringified form: read back with the reference
    reader, the element has the attributes [attribute] and [operator] and,
    for a present value only, [value] with [toString] of the value.  So 0
    gives the text 0, false gives false and the empty string gives an empty
    text, and [where('statecode','eq',0)] renders the value attribute with
    0 in it. *)
Theorem condition_value_attribute :
  (forall c : FilterCondition,
      Validator.includes Validator.validOperators (cond_operator c) = true ->
      XmlReader.element_attributes "condition"
        (FetchXMLBuilder.buildCondition c)
      = Some ([("attribute", cond_attribute c);
               ("operator", cond_operator c)]
                ++ (if JS.is_present (cond_value c)
                    then [("value", JS.toString (cond_value c))]
                    else []))%list)
  /\ (forall c : FilterCondition,
         FetchXMLBuilder.buildCondition c
         = "<condition attribute=" ++ JS.q
             ++ FetchXMLBuilder.escapeXml (cond_attribute c) ++ JS.q
             ++ " operator=" ++ JS.q ++ cond_operator c ++ JS.q
             ++ (if JS.is_present (cond_value c)
                 then " value=" ++ JS.q
                        ++ FetchXMLBuilder.escapeXml
                             (JS.toString (cond_value c)) ++ JS.q
                 else EmptyString)
             ++ "/>")
  /\ (JS.is_present JS.VUndefined = false
      /\ JS.is_present JS.VNull = false
      /\ forall v, v <> JS.VUndefined -> v <> JS.VNull ->
                   JS.is_present v = true)
  /\ (JS.toString (JS.VNumber 0) = "0"
      /\ JS.toString (JS.VBoolean false) = "false"
      /\ JS.toString (JS.VString EmptyString) = EmptyString)
  /\ outcome
       (bind (BaseEntity.where_ "statecode" "eq" (JS.VNumber 0))
             (fun _ => BaseEntity.build)
             (BaseEntity.new "account" "account"))
     = Ok ("<fetch><entity name=" ++ JS.q ++ "account" ++ JS.q ++ ">"
             ++ "<filter type=" ++ JS.q ++ "and" ++ JS.q ++ ">"
             ++ "<condition attribute=" ++ JS.q ++ "statecode" ++ JS.q
             ++ " operator=" ++ JS.q ++ "eq" ++ JS.q
             ++ " value=" ++ JS.q ++ "0" ++ JS.q ++ "/>"
             ++ "</filter></entity></fetch>").
Proof.
  split; [exact condition_attributes |].
  split.
  { intros c. unfold FetchXMLBuilder.buildCondition.
    destruct (JS.is_present (cond_value c)); str_norm; reflexivity. }
  split.
  { repeat split. intros [| |b|n|s] H1 H2; try reflexivity; congruence. }
  split; [repeat split |].
  reflexivity.
Qed.

Lemma condition_value_attribute_witness :
  XmlReader.element_attributes "condition"
    (FetchXMLBuilder.buildCondition
       (mkFilterCondition "statecode" "eq" (JS.VNumber 0)))
  = Some [("attribute", "statecode"); ("operator", "eq"); ("value", "0")].
Proof.
  exact (proj1 condition_value_attribute
           (mkFilterCondition "statecode" "eq" (JS.VNumber 0)) eq_refl).
Defined.

(** ** Filter operators *)

Section Operators.
Import Validator.

Lemma includes_In (l : list string) (s : string) :
  includes l s = true <-> In s l.
Proof.
  unfold includes. rewrite existsb_exists. split.
  - intros [x [Hin Heq]]. apply String.eqb_eq in Heq. now subst.
  - intros Hin. exists s. split; [exact Hin | apply String.eqb_refl].
Qed.

Lemma includes_not_In (l : list string) (s : string) :
  includes l s = false <-> ~ In s l.
Proof.
  rewrite <- includes_In. destruct (includes l s); split; congruence.
Qed.

Lemma validOperators_NoDup : NoDup validOperators.
Proof.
  unfold validOperators.
  repeat (apply NoDup_cons;
          [ cbn [In]; intros H;
            repeat (destruct H as [H|H]; [discriminate H |]); exact H | ]).
  apply NoDup_nil.
Qed.

Lemma validateFilterOperator_run (op : string) :
  validateFilterOperator op
  = if includes validOperators op then Ok op
    else Throw (ValidationError ("Invalid filter operator: " ++ op)
                                "operator").
Proof.
  unfold validateFilterOperator.
  destruct (includes validOperators op); reflexivity.
Qed.

End Operators.

(** C4, as stated, fails: no duplicate-free list of 28 strings is the set
    of operators [validateFilterOperator] accepts, because the validator's
    own list already holds 29 distinct accepted operators. *)
Lemma operator_set_is_not_28 :
  ~ (exists l : list string,
        NoDup l /\ length l = 28%nat
        /\ forall op, In op l
                      <-> Validator.validateFilterOperator op = Ok op).
Proof.
  intros [l [Hnd [Hlen Hl]]].
  assert (Hincl : incl Validator.validOperators l).
  { intros op Hin. apply Hl. rewrite validateFilterOperator_run.
    apply includes_In in Hin. now rewrite Hin. }
  pose proof (NoDup_incl_length validOperators_NoDup Hincl) as Hle.
  rewrite Hlen in Hle. cbn in Hle. lia.
Qed.

(** C4, amended. The fixed operator set has 29 values.  The validator
    returns its input unchanged exactly on the members of that set and
    throws a ValidationError exactly on every other string; [where] with a
    valid attribute name throws a ValidationError exactly when the operator
    is not a member, leaving the model as it was, and otherwise succeeds and
    appends a condition that carries the operator unchanged. *)
Theorem filter_operator_validation :
  (NoDup Validator.validOperators
   /\ length Validator.validOperators = 29%nat)
  /\ (forall op : string,
         (Validator.validateFilterOperator op = Ok op
          <-> In op Validator.validOperators)
         /\ (is_ValidationError (Validator.validateFilterOperator op) = true
             <-> ~ In op Validator.validOperators))
  /\ (forall (a op : string) (v : JS.value) (this : BaseEntity),
         Validator.invalid_name a = false ->
         (is_ValidationError (outcome (BaseEntity.where_ a op v this)) = true
          <-> ~ In op Validator.validOperators)
         /\ (outcome (BaseEntity.where_ a op v this) = Ok tt
             <-> In op Validator.validOperators)
         /\ (~ In op Validator.validOperators ->
             store (BaseEntity.where_ a op v this) = this)
         /\ (In op Validator.validOperators ->
             query_conditions (query (store (BaseEntity.where_ a op v this)))
             = (query_conditions (query this)
                  ++ [ECondition (mkFilterCondition a op v)])%list)).
Proof.
  split; [split; [exact validOperators_NoDup | reflexivity] |].
  split.
  - intros op. rewrite validateFilterOperator_run.
    destruct (Validator.includes Validator.validOperators op) eqn:E.
    + apply includes_In in E. cbn. split; split; intros H;
        try reflexivity; try exact E; try discriminate; contradiction.
    + apply includes_not_In in E. cbn. split; split; intros H;
        try reflexivity; try exact E; try discriminate; contradiction.
  - intros a op v this Ha. rewrite where_run, Ha.
    destruct (Validator.includes Validator.validOperators op) eqn:E;
      cbn [negb outcome store fst snd is_ValidationError].
    + apply includes_In in E.
      repeat split; intros H; try discriminate; try contradiction;
        try exact E.
      destruct this as [cls [e attrs [[ft cs]|] os ls d t p c]]; reflexivity.
    + apply includes_not_In in E.
      repeat split; intros H; try discriminate; try contradiction;
        try exact E.
  Qed.

Lemma filter_operator_validation_witness :
  (is_ValidationError
     (outcome (BaseEntity.where_ "name" "bogus-operator" (JS.VString "x")
                 (BaseEntity.new "account" "account"))) = true
   <-> ~ In "bogus-operator" Validator.validOperators)
  /\ (outcome (BaseEntity.where_ "name" "bogus-operator" (JS.VString "x")
                 (BaseEntity.new "account" "account")) = Ok tt
      <-> In "bogus-operator" Validator.validOperators)
  /\ (~ In "bogus-operator" Validator.validOperators ->
      store (BaseEntity.where_ "name" "bogus-operator" (JS.VString "x")
               (BaseEntity.new "account" "account"))
      = BaseEntity.new "account" "account")
  /\ (In "bogus-operator" Validator.validOperators ->
      query_conditions
        (query (store (BaseEntity.where_ "name" "bogus-operator"
                         (JS.VString "x")
                         (BaseEntity.new "account" "account"))))
      = (query_conditions (query (BaseEntity.new "account" "account"))
           ++ [ECondition
                 (mkFilterCondition "name" "bogus-operator"
                    (JS.VString "x"))])%list).
Proof.
  exact (proj2 (proj2 filter_operator_validation) "name" "bogus-operator"
           (JS.VString "x") (BaseEntity.new "account" "account") eq_refl).
Defined.

(** ** Names *)

Section Names.
Import JS.

Lemma whitespace_only_trimStart (s : string) :
  whitespace_only (trimStart s) = whitespace_only s.
Proof.
  unfold whitespace_only.
  induction s as [|c s IH]; [reflexivity |].
  cbn [trimStart string_forallb].
  destruct (isWhiteSpace c) eqn:E; cbn [andb]; [exact IH |].
  cbn [string_forallb]. now rewrite E.
Qed.

Lemma whitespace_only_rev (acc s : string) :
  whitespace_only (rev_string acc s)
  = whitespace_only acc && whitespace_only s.
Proof.
  unfold whitespace_only. revert acc.
  induction s as [|c s IH]; intros acc; cbn [rev_string string_forallb].
  - now rewrite andb_true_r.
  - rewrite IH. cbn [string_forallb].
    destruct (isWhiteSpace c), (string_forallb isWhiteSpace acc);
      reflexivity.
Qed.

Lemma trimStart_empty (s : string) :
  (trimStart s =? EmptyString)%string = whitespace_only s.
Proof.
  unfold whitespace_only.
  induction s as [|c s IH]; [reflexivity |].
  cbn [trimStart string_forallb].
  destruct (isWhiteSpace c); [exact IH | reflexivity].
Qed.

Lemma rev_string_empty (acc s : string) :
  (rev_string acc s =? EmptyString)%string
  = (acc =? EmptyString)%string && (s =? EmptyString)%string.
Proof.
  revert acc. induction s as [|c s IH]; intros acc; cbn [rev_string].
  - now rewrite andb_true_r.
  - rewrite IH. cbn. now rewrite andb_false_r.
Qed.

Lemma trim_empty (s : string) :
  (trim s =? EmptyString)%string = whitespace_only s.
Proof.
  unfold trim, trimEnd.
  rewrite rev_string_empty. cbn [String.eqb andb].
  rewrite trimStart_empty, whitespace_only_rev.
  cbn [whitespace_only string_forallb andb].
  fold (whitespace_only (trimStart s)).
  apply whitespace_only_trimStart.
Qed.

(** The name validators reject exactly the strings that are empty or
    white space only. *)
Lemma invalid_name_whitespace_only (s : string) :
  Validator.invalid_name s = whitespace_only s.
Proof.
  unfold Validator.invalid_name. rewrite trim_empty.
  destruct s as [|c s]; [reflexivity |].
  reflexivity.
Qed.

End Names.

(** ** groupBy *)

(** C7. [groupBy] never changes the bound query model.  With a name that
    is not empty and not white space only it returns normally, so a build
    that follows gives the XML it would have given without the call; with an
    empty or white-space-only name it throws a ValidationError, and the
    model is still the one before the call. *)
Theorem groupBy_leaves_model :
  forall (a : string) (this : BaseEntity),
    store (BaseEntity.groupBy a this) = this
    /\ (whitespace_only a = false ->
        outcome (BaseEntity.groupBy a this) = Ok tt
        /\ bind (BaseEntity.groupBy a) (fun _ => BaseEntity.build) this
           = BaseEntity.build this)
    /\ (whitespace_only a = true ->
        is_ValidationError (outcome (BaseEntity.groupBy a this)) = true).
Proof.
  intros a this.
  unfold BaseEntity.groupBy, bind, call, ret, Validator.validateAttributeName.
  rewrite invalid_name_whitespace_only.
  destruct (whitespace_only a); cbn [store outcome fst snd];
    repeat split; intros; try discriminate; reflexivity.
Qed.

Lemma groupBy_leaves_model_witness :
  (store (BaseEntity.groupBy "address1_country"
            (BaseEntity.new "account" "account"))
   = BaseEntity.new "account" "account")
  /\ (whitespace_only "address1_country" = false ->
      outcome (BaseEntity.groupBy "address1_country"
                 (BaseEntity.new "account" "account")) = Ok tt
      /\ bind (BaseEntity.groupBy "address1_country")
              (fun _ => BaseEntity.build)
              (BaseEntity.new "account" "account")
         = BaseEntity.build (BaseEntity.new "account" "account"))
  /\ (whitespace_only "address1_country" = true ->
      is_ValidationError
        (outcome (BaseEntity.groupBy "address1_country"
                    (BaseEntity.new "account" "account"))) = true).
Proof.
  exact (groupBy_leaves_model "address1_country"
           (BaseEntity.new "account" "account")).
Defined.

(** ** Ranges *)

Section Ranges.

Lemma refused_in_range (n : JS.number) :
  n <> JS.NaN -> refused n = negb (in_range n).
Proof.
  intros Hn. unfold refused, in_range, JS.gtb.
  destruct n as [z| | |]; cbn [JS.ltb]; try reflexivity; [| congruence].
  destruct (Z.ltb_spec z 1), (Z.ltb_spec 5000 z), (Z.leb_spec 1 z),
    (Z.leb_spec z 5000); cbn; try reflexivity; lia.
Qed.

Lemma below_one (n : JS.number) :
  n <> JS.NaN -> JS.ltb n 1 = negb (at_least_one n).
Proof.
  intros Hn. unfold at_least_one.
  destruct n as [z| | |]; cbn [JS.ltb]; try reflexivity; [| congruence].
  destruct (Z.ltb_spec z 1), (Z.leb_spec 1 z); cbn; try reflexivity; lia.
Qed.

Lemma top_result (n : JS.number) (this : BaseEntity) :
  BaseEntity.top n this
  = if refused n then (Throw topError, this)
    else (Ok tt, set_query (set_top (Some n)) this).
Proof.
  unfold BaseEntity.top, bind, call, modify, Validator.validateTop.
  change (JS.ltb n Validator.MIN_TOP_SIZE || JS.gtb n Validator.MAX_TOP_SIZE)
    with (refused n).
  destruct (refused n); reflexivity.
Qed.

Lemma page_result (p : JS.number) (s : option JS.number) (this : BaseEntity) :
  BaseEntity.page p s this
  = if JS.ltb p 1 then (Throw pageError, this)
    else if refused (default (JS.Num 50) s) then (Throw countError, this)
    else (Ok tt,
          set_query (set_count (Some (default (JS.Num 50) s)))
            (set_query (set_page (Some p)) this)).
Proof.
  unfold BaseEntity.page, bind, call, modify, Validator.validatePagination.
  change (JS.ltb p Validator.MIN_PAGE_SIZE) with (JS.ltb p 1).
  change (JS.ltb (default (JS.Num 50) s) Validator.MIN_PAGE_SIZE
          || JS.gtb (default (JS.Num 50) s) Validator.MAX_PAGE_SIZE)
    with (refused (default (JS.Num 50) s)).
  destruct (JS.ltb p 1); [reflexivity |].
  destruct (refused (default (JS.Num 50) s)); reflexivity.
Qed.

End Ranges.

(** C8. The range checks miss NaN.  [top(NaN)] returns and stores NaN as
    the [top], and [page(1, NaN)] and [page(NaN)] return and store NaN as
    the [count], respectively the [page], although NaN is not in 1..5000:
    both comparisons of the check are false on it.  On every other number
    the checks are exact: [top(n)] throws a ValidationError exactly when
    [n] is outside 1..5000 and otherwise sets [top]; [page(p, s)], with 50
    standing in for an omitted size, throws a ValidationError exactly when
    [p] is below 1 or the size is outside 1..5000, and otherwise sets both
    [page] and [count].  So top(0), top(5001), page(0, 10), page(1, 0) and
    page(1, 5001) fail, and top(1), top(5000), page(1, 50) and page(1)
    succeed. *)
Theorem range_check_accepts_NaN :
  (in_range JS.NaN = false
   /\ (forall this : BaseEntity,
          BaseEntity.top JS.NaN this
          = (Ok tt, set_query (set_top (Some JS.NaN)) this))
   /\ (forall this : BaseEntity,
          BaseEntity.page 1 (Some JS.NaN) this
          = (Ok tt,
             set_query (set_count (Some JS.NaN))
               (set_query (set_page (Some 1)) this)))
   /\ (forall this : BaseEntity,
          BaseEntity.page JS.NaN None this
          = (Ok tt,
             set_query (set_count (Some 50))
               (set_query (set_page (Some JS.NaN)) this))))
  /\ (forall (n : JS.number) (this : BaseEntity),
         n <> JS.NaN ->
         (is_ValidationError (outcome (BaseEntity.top n this)) = true
          <-> in_range n = false)
         /\ (outcome (BaseEntity.top n this) = Ok tt <-> in_range n = true)
         /\ (in_range n = true ->
             store (BaseEntity.top n this)
             = set_query (set_top (Some n)) this))
  /\ (forall (p : JS.number) (s : option JS.number) (this : BaseEntity),
         p <> JS.NaN -> default (JS.Num 50) s <> JS.NaN ->
         (is_ValidationError (outcome (BaseEntity.page p s this)) = true
          <-> (at_least_one p = false
               \/ in_range (default (JS.Num 50) s) = false))
         /\ (outcome (BaseEntity.page p s this) = Ok tt
             <-> (at_least_one p = true
                  /\ in_range (default (JS.Num 50) s) = true))
         /\ (at_least_one p = true
             /\ in_range (default (JS.Num 50) s) = true ->
             store (BaseEntity.page p s this)
             = set_query (set_count (Some (default (JS.Num 50) s)))
                 (set_query (set_page (Some p)) this)))
  /\ (forall (n : Z) (this : BaseEntity),
         (is_ValidationError (outcome (BaseEntity.top n this)) = true
          <-> (n < 1 \/ 5000 < n))
         /\ (outcome (BaseEntity.top n this) = Ok tt <-> 1 <= n <= 5000)
         /\ (1 <= n <= 5000 ->
             store (BaseEntity.top n this)
             = set_query (set_top (Some n)) this))
  /\ (forall (p : Z) (s : option Z) (this : BaseEntity),
         (is_ValidationError
            (outcome (BaseEntity.page p (option_map JS.Num s) this)) = true
          <-> (p < 1 \/ default 50 s < 1 \/ 5000 < default 50 s))
         /\ (outcome (BaseEntity.page p (option_map JS.Num s) this) = Ok tt
             <-> (1 <= p /\ 1 <= default 50 s <= 5000))
         /\ (1 <= p /\ 1 <= default 50 s <= 5000 ->
             store (BaseEntity.page p (option_map JS.Num s) this)
             = set_query (set_count (Some (default 50 s)))
                 (set_query (set_page (Some p)) this)))
  /\ (forall this : BaseEntity,
         is_ValidationError (outcome (BaseEntity.top 0 this)) = true
         /\ is_ValidationError (outcome (BaseEntity.top 5001 this)) = true
         /\ is_ValidationError
              (outcome (BaseEntity.top JS.Infinity this)) = true
         /\ outcome (BaseEntity.top 1 this) = Ok tt
         /\ outcome (BaseEntity.top 5000 this) = Ok tt
         /\ is_ValidationError
              (outcome (BaseEntity.page 0 (Some 10) this)) = true
         /\ is_ValidationError
              (outcome (BaseEntity.page 1 (Some 0) this)) = true
         /\ is_ValidationError
              (outcome (BaseEntity.page 1 (Some 5001) this)) = true
         /\ outcome (BaseEntity.page 1 (Some 50) this) = Ok tt
         /\ BaseEntity.page 1 None this = BaseEntity.page 1 (Some 50) this
         /\ page (query (store (BaseEntity.page 1 None this))) = Some 1
         /\ count (query (store (BaseEntity.page 1 None this))) = Some 50).
Proof.
  split; [repeat split |].
  split.
  { intros n this Hn. rewrite top_result, (refused_in_range n Hn).
    destruct (in_range n); cbn [negb outcome store fst snd is_ValidationError];
      repeat split; intros; try discriminate; reflexivity. }
  split.
  { intros p s this Hp Hs.
    rewrite page_result, (below_one p Hp), (refused_in_range _ Hs).
    destruct (at_least_one p), (in_range (default (JS.Num 50) s));
      cbn [negb outcome store fst snd is_ValidationError];
      repeat split; intros; try discriminate; try reflexivity;
      try tauto; intuition discriminate. }
  split.
  { intros n this. rewrite top_result.
    assert (Hn : JS.Num n <> JS.NaN) by discriminate.
    rewrite (refused_in_range _ Hn). unfold in_range.
    destruct (Z.leb_spec 1 n), (Z.leb_spec n 5000);
      cbn [andb negb outcome store fst snd is_ValidationError];
      repeat split; intros; try lia; try discriminate; reflexivity. }
  split.
  { intros p s this. rewrite page_result.
    assert (Hs : default (JS.Num 50) (option_map JS.Num s)
                 = JS.Num (default 50 s)) by (destruct s; reflexivity).
    rewrite Hs.
    assert (Hp : JS.Num p <> JS.NaN) by discriminate.
    assert (Hd : JS.Num (default 50 s) <> JS.NaN) by discriminate.
    rewrite (below_one _ Hp), (refused_in_range _ Hd).
    unfold at_least_one, in_range.
    destruct (Z.leb_spec 1 p), (Z.leb_spec 1 (default 50 s)),
      (Z.leb_spec (default 50 s) 5000);
      cbn [andb negb outcome store fst snd is_ValidationError];
      repeat split; intros; try lia; try discriminate; reflexivity. }
  intros this. repeat split.
Qed.

Lemma range_check_accepts_NaN_witness :
  store (BaseEntity.top 5000 (BaseEntity.new "account" "account"))
  = set_query (set_top (Some 5000)) (BaseEntity.new "account" "account").
Proof.
  refine (proj2 (proj2 (proj1 (proj2 (proj2 (proj2 range_check_accepts_NaN)))
                          5000 (BaseEntity.new "account" "account"))) _).
  lia.
Defined.

(** ** Construction *)

(** C9. Constructing a builder validates nothing: for every string, the
    empty and the white-space-only ones included, the constructor returns a
    builder whose query holds that string as its entity and nothing else,
    and a build that follows puts the string as it is inside the [name]
    attribute of the [entity] element.  The non-empty-name rule is applied
    by [join] to the joined entity's name and by attribute insertion. *)
Theorem constructor_never_validates :
  forall (cls name : string),
    query (BaseEntity.new cls name)
    = mkFetchQuery name [] None None None None None None None
    /\ BaseEntity.build (BaseEntity.new cls name)
       = (Ok ("<fetch><entity name=" ++ JS.q ++ name ++ JS.q
                ++ "></entity></fetch>"),
          BaseEntity.new cls name)
    /\ (forall (f t : string) (al k : option string) (this : BaseEntity),
           whitespace_only name = true ->
           BaseEntity.join name f t al k this = (Throw entityNameError, this))
    /\ (forall this : BaseEntity,
           whitespace_only name = true ->
           BaseEntity.select [name] this = (Throw attributeNameError, this)).
Proof.
  intros cls name. split; [reflexivity |]. split; [| split].
  - unfold BaseEntity.build, bind, get, ret, BaseEntity.new,
      FetchXMLBuilder.build, FetchXMLBuilder.buildAttributes.
    cbn [query entity attributes filters orders links distinct top page count
         fold_left].
    str_norm. reflexivity.
  - intros f t al k this Hw.
    unfold BaseEntity.join, bind, call, Validator.validateEntityName.
    now rewrite invalid_name_whitespace_only, Hw.
  - intros this Hw.
    rewrite select_run. unfold all_valid_names. cbn [forallb].
    now rewrite invalid_name_whitespace_only, Hw.
Qed.

Lemma constructor_never_validates_witness :
  BaseEntity.build (BaseEntity.new "account" "   ")
  = (Ok ("<fetch><entity name=" ++ JS.q ++ "   " ++ JS.q
           ++ "></entity></fetch>"),
     BaseEntity.new "account" "   ")
  /\ BaseEntity.join "   " "accountid" "parentcustomerid" None None
       (BaseEntity.new "account" "   ")
     = (Throw entityNameError, BaseEntity.new "account" "   ").
Proof.
  split.
  - exact (proj1 (proj2 (constructor_never_validates "account" "   "))).
  - exact (proj1 (proj2 (proj2 (constructor_never_validates "account" "   ")))
             "accountid" "parentcustomerid" None None
             (BaseEntity.new "account" "   ") eq_refl).
Defined.

(** ** Aggregates *)



(** ** Failed calls *)

Section Atomicity.

(** Case analysis on every test a call's validation makes. *)
Ltac split_tests :=
  repeat match goal with
         | |- context [if ?b then _ else _] => destruct b eqn:?
         end.

Ltac settle :=
  cbn [outcome store fst snd]; intros; solve [reflexivity | congruence].

Lemma selectAs_atomic (a al : string) (this : BaseEntity) :
  outcome (BaseEntity.selectAs a al this) <> Ok tt ->
  store (BaseEntity.selectAs a al this) = this.
Proof.
  unfold BaseEntity.selectAs, bind, call, modify,
    Validator.validateAttributeName.
  split_tests; settle.
Qed.

Lemma addAggregate_atomic (g : string) (a al : option string)
      (this : BaseEntity) :
  outcome (BaseEntity.addAggregate g a al this) <> Ok tt ->
  store (BaseEntity.addAggregate g a al this) = this.
Proof.
  unfold BaseEntity.addAggregate, bind, call, get, when, ret, modify,
    Validator.validateAggregateType, Validator.validateAttributeName.
  split_tests; settle.
Qed.

Lemma orderBy_atomic (a : string) (o : option string) (this : BaseEntity) :
  outcome (BaseEntity.orderBy a o this) <> Ok tt ->
  store (BaseEntity.orderBy a o this) = this.
Proof.
  unfold BaseEntity.orderBy, bind, call, get, when, ret, modify,
    Validator.validateAttributeName, Validator.validateOrderType.
  split_tests; settle.
Qed.

Lemma top_atomic (n : JS.number) (this : BaseEntity) :
  outcome (BaseEntity.top n this) <> Ok tt ->
  store (BaseEntity.top n this) = this.
Proof.
  unfold BaseEntity.top, bind, call, modify, Validator.validateTop.
  split_tests; settle.
Qed.

Lemma page_atomic (p : JS.number) (s : option JS.number)
      (this : BaseEntity) :
  outcome (BaseEntity.page p s this) <> Ok tt ->
  store (BaseEntity.page p s this) = this.
Proof.
  unfold BaseEntity.page, bind, call, modify, Validator.validatePagination.
  split_tests; settle.
Qed.

Lemma join_atomic (e f t : string) (al k : option string)
      (this : BaseEntity) :
  is_Ok (outcome (BaseEntity.join e f t al k this)) = false ->
  store (BaseEntity.join e f t al k this) = this.
Proof.
  unfold BaseEntity.join, bind, call, get, when, ret, modify,
    Validator.validateEntityName, Validator.validateAttributeName.
  split_tests; cbn [outcome store fst snd is_Ok]; intros;
    solve [reflexivity | discriminate].
Qed.

Lemma perform_atomic (c : BuilderCall) (this : BaseEntity) :
  outcome (perform c this) <> Ok tt -> store (perform c this) = this.
Proof.
  destruct c as [xs | a al | m a al | a op v | a o | n | p s | e f t al k];
    cbn [perform].
  - rewrite select_run. destruct (all_valid_names xs); settle.
  - apply selectAs_atomic.
  - destruct m; apply addAggregate_atomic.
  - rewrite where_run.
    destruct (Validator.invalid_name a); [settle |].
    destruct (negb (Validator.includes Validator.validOperators op));
      settle.
  - apply orderBy_atomic.
  - apply top_atomic.
  - apply page_atomic.
  - intros H.
    pose proof (join_atomic e f t al k this) as Hj.
    unfold bind, outcome, store in *.
    destruct (BaseEntity.join e f t al k this) as [[jb|err] s'];
      cbn [fst snd is_Ok ret] in *; [congruence | now apply Hj].
Qed.

End Atomicity.

(** C2. A builder call that fails leaves the bound query model exactly as
    it was before the call, for each of select, selectAs, the aggregate
    methods, where, orderBy, top, page and join and for every input.  In
    particular a select in which some name is invalid appends none of the
    names, and a page call whose page size is out of range on a fresh
    builder leaves both [page] and [count] unset. *)
Theorem failed_call_leaves_model :
  (forall (c : BuilderCall) (this : BaseEntity),
      outcome (perform c this) <> Ok tt -> store (perform c this) = this)
  /\ (forall (xs : list string) (this : BaseEntity),
         all_valid_names xs = false ->
         BaseEntity.select xs this = (Throw attributeNameError, this))
  /\ (forall (cls name : string) (p s : Z),
         s < 1 \/ 5000 < s ->
         is_ValidationError
           (outcome (BaseEntity.page p (Some s) (BaseEntity.new cls name)))
         = true
         /\ page (query (store (BaseEntity.page p (Some s)
                                  (BaseEntity.new cls name)))) = None
         /\ count (query (store (BaseEntity.page p (Some s)
                                   (BaseEntity.new cls name)))) = None).
Proof.
  split; [exact perform_atomic |]. split.
  - intros xs this H. now rewrite select_run, H.
  - intros cls name p s Hs.
    rewrite page_result. cbn [default].
    destruct (JS.ltb p 1); [repeat split |].
    assert (Hn : JS.Num s <> JS.NaN) by discriminate.
    rewrite (refused_in_range _ Hn). unfold in_range.
    destruct (Z.leb_spec 1 s), (Z.leb_spec s 5000); cbn [andb negb];
      try lia; repeat split.
Qed.

Lemma failed_call_leaves_model_witness :
  store (perform (CallSelect ["name"; "  "; "revenue"])
           (BaseEntity.new "account" "account"))
  = BaseEntity.new "account" "account".
Proof.
  refine (proj1 failed_call_leaves_model
            (CallSelect ["name"; "  "; "revenue"])
            (BaseEntity.new "account" "account") _).
  vm_compute. discriminate.
Defined.

(** ** The root entity name *)

(** C1. The root entity name is the one string field the renderer inserts
    without escaping: a builder constructed for the entity name R&D builds a
    document whose [entity] element carries the raw ampersand, although
    [escapeXml] turns that name into R&amp;D and the sibling path for a link
    entity's name does apply it. *)
Theorem entity_name_not_escaped :
  BaseEntity.build (BaseEntity.new "account" "R&D")
  = (Ok ("<fetch><entity name=" ++ JS.q ++ "R&D" ++ JS.q
           ++ "></entity></fetch>"),
     BaseEntity.new "account" "R&D")
  /\ FetchXMLBuilder.escapeXml "R&D" = "R&amp;D"
  /\ outcome (BaseEntity.build (BaseEntity.new "account" "R&D"))
     <> Ok ("<fetch><entity name=" ++ JS.q
              ++ FetchXMLBuilder.escapeXml "R&D" ++ JS.q
              ++ "></entity></fetch>")
  /\ FetchXMLBuilder.buildLinkEntity
       (mkLinkEntity "R&D" "accountid" "parentid" None None [] None None)
     = "<link-entity name=" ++ JS.q ++ "R&amp;D" ++ JS.q
         ++ " from=" ++ JS.q ++ "accountid" ++ JS.q
         ++ " to=" ++ JS.q ++ "parentid" ++ JS.q ++ "></link-entity>".
Proof.
  repeat split. vm_compute. discriminate.
Qed.

(** * Further properties *)

(** ** Every call is a check of its arguments followed by one write *)

Section Factoring.

Lemma selectAs_run (a al : string) (this : BaseEntity) :
  BaseEntity.selectAs a al this
  = match call_error (CallSelectAs a al) with
    | Some e => (Throw e, this)
    | None =>
        (Ok tt, mkBaseEntity (entityName this)
                  (call_effect (CallSelectAs a al) this))
    end.
Proof.
  unfold BaseEntity.selectAs, bind, call, modify,
    Validator.validateAttributeName. cbn [call_error call_effect].
  destruct (Validator.invalid_name a); [reflexivity |].
  destruct (Validator.invalid_name al); reflexivity.
Qed.

Lemma addAggregate_run (m : AggregateMethod) (a al : option string)
      (this : BaseEntity) :
  BaseEntity.addAggregate (aggregate_text m) a al this
  = match call_error (CallAggregate m a al) with
    | Some e => (Throw e, this)
    | None =>
        (Ok tt, mkBaseEntity (entityName this)
                  (call_effect (CallAggregate m a al) this))
    end.
Proof.
  unfold BaseEntity.addAggregate, bind, call, get, when, ret, modify,
    Validator.validateAttributeName.
  cbn [call_error call_effect aggregate_name].
  assert (Hagg : Validator.validateAggregateType (aggregate_text m)
                 = Ok (aggregate_text m)) by (destruct m; reflexivity).
  rewrite Hagg.
  destruct a as [s|]; cbn [JS.truthy_opt_string default aggregate_name];
    [| reflexivity].
  destruct (JS.truthy_string s); cbn [andb]; [| reflexivity].
  destruct (Validator.invalid_name s); reflexivity.
Qed.

Lemma orderBy_run (a : string) (o : option string) (this : BaseEntity) :
  BaseEntity.orderBy a o this
  = match call_error (CallOrderBy a o) with
    | Some e => (Throw e, this)
    | None =>
        (Ok tt, mkBaseEntity (entityName this)
                  (call_effect (CallOrderBy a o) this))
    end.
Proof.
  unfold BaseEntity.orderBy, bind, call, get, when, ret, modify,
    Validator.validateAttributeName, Validator.validateOrderType.
  cbn [call_error call_effect].
  destruct (Validator.invalid_name a); [reflexivity |].
  destruct (Validator.includes Validator.validOrders (default "asc" o));
    cbn [negb]; [| reflexivity].
  destruct this as [cls [e attrs fs [os|] ls d t p c]]; reflexivity.
Qed.

Lemma top_run (n : JS.number) (this : BaseEntity) :
  BaseEntity.top n this
  = match call_error (CallTop n) with
    | Some e => (Throw e, this)
    | None =>
        (Ok tt, mkBaseEntity (entityName this) (call_effect (CallTop n) this))
    end.
Proof.
  rewrite top_result. cbn [call_error call_effect].
  destruct (refused n); reflexivity.
Qed.

Lemma page_run (p : JS.number) (s : option JS.number)
      (this : BaseEntity) :
  BaseEntity.page p s this
  = match call_error (CallPage p s) with
    | Some e => (Throw e, this)
    | None =>
        (Ok tt, mkBaseEntity (entityName this)
                  (call_effect (CallPage p s) this))
    end.
Proof.
  rewrite page_result. cbn [call_error call_effect].
  destruct (JS.ltb p 1); [reflexivity |].
  destruct (refused (default (JS.Num 50) s)); reflexivity.
Qed.

Lemma join_run (e f t : string) (al k : option string) (this : BaseEntity) :
  BaseEntity.join e f t al k this
  = match call_error (CallJoin e f t al k) with
    | Some err => (Throw err, this)
    | None =>
        (Ok (mkJoinBuilderRef (length (default [] (links (query this))))),
         mkBaseEntity (entityName this)
           (call_effect (CallJoin e f t al k) this))
    end.
Proof.
  unfold BaseEntity.join, bind, call, get, when, ret, modify,
    Validator.validateEntityName, Validator.validateAttributeName.
  cbn [call_error call_effect].
  destruct (Validator.invalid_name e); [reflexivity |].
  destruct (Validator.invalid_name f); [reflexivity |].
  destruct (Validator.invalid_name t); [reflexivity |].
  destruct this as [cls [en attrs fs os [ls|] d tp p c]];
    cbn [is_undefined links query set_query set_links opt_push default
         entityName entity attributes filters orders distinct top page count];
    rewrite ?length_app; cbn [length Nat.add];
    rewrite ?Nat.add_1_r; reflexivity.
Qed.

Lemma perform_run (c : BuilderCall) (this : BaseEntity) :
  perform c this
  = match call_error c with
    | Some e => (Throw e, this)
    | None => (Ok tt, mkBaseEntity (entityName this) (call_effect c this))
    end.
Proof.
  destruct c as [xs | a al | m a al | a op v | a o | n | p s | e f t al k];
    cbn [perform].
  - rewrite select_run. cbn [call_error call_effect].
    destruct (all_valid_names xs); reflexivity.
  - apply selectAs_run.
  - destruct m;
      [ exact (addAggregate_run Count a al this)
      | exact (addAggregate_run Sum a al this)
      | exact (addAggregate_run Avg a al this)
      | exact (addAggregate_run Min a al this)
      | exact (addAggregate_run Max a al this) ].
  - rewrite where_run. cbn [call_error call_effect].
    destruct (Validator.invalid_name a); [reflexivity |].
    destruct (Validator.includes Validator.validOperators op); reflexivity.
  - apply orderBy_run.
  - apply top_run.
  - apply page_run.
  - unfold bind. rewrite join_run.
    destruct (call_error (CallJoin e f t al k)); reflexivity.
Qed.

End Factoring.

(** ** Outcomes of calls *)

(** X1. Whether a builder call returns or throws, and the error it throws,
    depends on the call's arguments only: the same call has the same outcome
    on every builder, whatever the builder already holds. *)
Theorem outcome_independent_of_builder :
  forall (c : BuilderCall) (b1 b2 : BaseEntity),
    outcome (perform c b1) = outcome (perform c b2).
Proof.
  intros c b1 b2. rewrite !perform_run.
  destruct (call_error c); reflexivity.
Qed.

(** X2. Every error a builder call throws is a validation error (code
    VALIDATION_ERROR) that names the argument kind that failed: attribute
    for select, selectAs and the aggregates; attribute or operator for
    where; attribute or order for orderBy; top for top; page or count for
    page; entityName or attribute for join. *)
Theorem thrown_errors_are_validation_errors :
  forall (c : BuilderCall) (this : BaseEntity) (e : Error),
    outcome (perform c this) = Throw e ->
    error_code e = "VALIDATION_ERROR"
    /\ exists f, error_field e = Some f /\ In f (error_fields c).
Proof.
  intros c this e. rewrite perform_run.
  destruct (call_error c) as [e'|] eqn:E; cbn [outcome fst];
    [| discriminate].
  intros H. injection H as <-.
  destruct c as [xs | a al | m a al | a op v | a o | n | p s | en f t al k];
    cbn [call_error] in E;
    repeat match type of E with
           | context [match ?x with _ => _ end] => destruct x
           end;
    try discriminate; injection E as <-;
    (split; [reflexivity | eexists; split; [reflexivity | cbn; tauto]]).
Qed.

Lemma thrown_errors_are_validation_errors_witness :
  error_code (operatorError "between") = "VALIDATION_ERROR"
  /\ exists f, error_field (operatorError "between") = Some f
               /\ In f ["attribute"; "operator"].
Proof.
  exact (thrown_errors_are_validation_errors
           (CallWhere "name" "between" (JS.VNumber 1))
           (BaseEntity.new "account" "account")
           (operatorError "between") eq_refl).
Defined.

(** ** What a call leaves alone *)

(** X3. No builder call removes, reorders or rewrites what the query
    already holds, and none touches the root entity name or the class
    field: after any call the attributes, the conditions, the orders and
    the links are the old ones followed by what the call added, if
    anything. *)
Theorem calls_only_append :
  forall (c : BuilderCall) (this : BaseEntity),
    let after := store (perform c this) in
    entityName after = entityName this
    /\ entity (query after) = entity (query this)
    /\ distinct (query after) = distinct (query this)
    /\ (exists new,
           attributes (query after) = (attributes (query this) ++ new)%list)
    /\ (exists new,
           query_conditions (query after)
           = (query_conditions (query this) ++ new)%list)
    /\ (exists new,
           default [] (orders (query after))
           = (default [] (orders (query this)) ++ new)%list)
    /\ (exists new,
           default [] (links (query after))
           = (default [] (links (query this)) ++ new)%list).
Proof.
  intros c this after. subst after. rewrite perform_run.
  destruct (call_error c) as [e|]; cbn [store snd].
  { repeat split; exists []; now rewrite app_nil_r. }
  destruct this as [cls [e attrs fs os ls d t p cnt]].
  destruct c as [xs | a al | m a al | a op v | a o | n | pg s | en f tt' al k];
    cbn [call_effect query entityName entity attributes filters orders links
         distinct push_attributes set_filters set_orders set_top set_page
         set_count set_links query_conditions default];
    repeat split;
    try (eexists; reflexivity);
    try (exists []; now rewrite app_nil_r).
  destruct fs as [[ft cs]|]; cbn [add_condition filter_conditions];
    eexists; reflexivity.
Qed.

(** X4. A call writes one field of the query only: a call that is not an
    attribute call leaves the attributes as they are, one that is not where
    leaves the filter tree, and so on for the orders, top, page with count,
    and the links. *)
Theorem calls_write_one_field :
  forall (c : BuilderCall) (this : BaseEntity),
    let after := query (store (perform c this)) in
    (slot_of c <> SlotAttributes -> attributes after = attributes (query this))
    /\ (slot_of c <> SlotFilters -> filters after = filters (query this))
    /\ (slot_of c <> SlotOrders -> orders after = orders (query this))
    /\ (slot_of c <> SlotTop -> top after = top (query this))
    /\ (slot_of c <> SlotPaging ->
        page after = page (query this) /\ count after = count (query this))
    /\ (slot_of c <> SlotLinks -> links after = links (query this)).
Proof.
  intros c this after. subst after. rewrite perform_run.
  destruct (call_error c) as [e|]; cbn [store snd].
  { repeat split. }
  destruct this as [cls [e attrs fs os ls d t p cnt]].
  destruct c as [xs | a al | m a al | a op v | a o | n | pg s | en f tt' al k];
    cbn [call_effect query slot_of];
    repeat split; intros; try reflexivity; congruence.
Qed.

Lemma calls_write_one_field_witness :
  attributes
    (query (store (perform (CallTop 10)
                     (store (perform (CallSelect ["name"])
                               (BaseEntity.new "account" "account"))))))
  = attributes
      (query (store (perform (CallSelect ["name"])
                       (BaseEntity.new "account" "account")))).
Proof.
  refine (proj1 (calls_write_one_field (CallTop 10)
                   (store (perform (CallSelect ["name"])
                             (BaseEntity.new "account" "account")))) _).
  discriminate.
Defined.

(** ** How calls compose *)

(** X5. Calls that write different fields commute: when each of two such
    calls succeeds, making them in either order leaves the same builder, so
    the document built afterwards does not depend on the order in which, say,
    attributes, conditions, orders and joins were added relative to each
    other. *)
Theorem calls_on_different_fields_commute :
  forall (c1 c2 : BuilderCall) (this : BaseEntity),
    slot_of c1 <> slot_of c2 ->
    outcome (perform c1 this) = Ok tt ->
    outcome (perform c2 this) = Ok tt ->
    bind (perform c1) (fun _ => perform c2) this
    = bind (perform c2) (fun _ => perform c1) this
    /\ bind (perform c1)
            (fun _ => bind (perform c2) (fun _ => BaseEntity.build)) this
       = bind (perform c2)
              (fun _ => bind (perform c1) (fun _ => BaseEntity.build)) this.
Proof.
  intros c1 c2 this Hslot H1 H2.
  assert (E1 : call_error c1 = None).
  { rewrite perform_run in H1. now destruct (call_error c1). }
  assert (E2 : call_error c2 = None).
  { rewrite perform_run in H2. now destruct (call_error c2). }
  assert (Hst :
    call_effect c2 (mkBaseEntity (entityName this) (call_effect c1 this))
    = call_effect c1 (mkBaseEntity (entityName this) (call_effect c2 this))).
  { clear H1 H2 E1 E2.
    destruct this as [cls [e attrs fs os ls d t p cnt]].
    destruct c1 as [xs|a al|m a al|a op v|a o|n|pg s|en f tt' al k];
      destruct c2 as [xs2|a2 al2|m2 a2 al2|a2 op2 v2|a2 o2|n2|pg2 s2
                     |en2 f2 tt2 al2 k2];
      cbn [slot_of] in Hslot; try (now contradiction Hslot);
      reflexivity. }
  unfold bind. rewrite !perform_run, E1, E2.
  rewrite !perform_run, E1, E2. cbn [entityName].
  rewrite Hst. split; reflexivity.
Qed.

Lemma calls_on_different_fields_commute_witness :
  bind (perform (CallOrderBy "name" None))
       (fun _ => perform (CallSelect ["name"; "revenue"]))
       (BaseEntity.new "account" "account")
  = bind (perform (CallSelect ["name"; "revenue"]))
         (fun _ => perform (CallOrderBy "name" None))
         (BaseEntity.new "account" "account").
Proof.
  refine (proj1 (calls_on_different_fields_commute
                   (CallOrderBy "name" None)
                   (CallSelect ["name"; "revenue"])
                   (BaseEntity.new "account" "account") _ eq_refl eq_refl)).
  discriminate.
Defined.

(** X6. For the scalar settings the last call wins: a successful [top]
    overwrites whatever an earlier [top] did, a successful [page] overwrites
    both the page and the count of an earlier [page], and a second
    [distinct] changes nothing. *)
Theorem last_setting_wins :
  forall (this : BaseEntity),
    (forall n m : JS.number,
        in_range m = true ->
        store (BaseEntity.top m (store (BaseEntity.top n this)))
        = store (BaseEntity.top m this))
    /\ (forall (p : JS.number) (p' : Z) (s s' : option JS.number),
           1 <= p' -> in_range (default (JS.Num 50) s') = true ->
           store (BaseEntity.page p' s' (store (BaseEntity.page p s this)))
           = store (BaseEntity.page p' s' this))
    /\ store (BaseEntity.distinct (store (BaseEntity.distinct this)))
       = store (BaseEntity.distinct this).
Proof.
  intros this. split; [| split].
  - intros n m Hm. rewrite !top_run. cbn [call_error].
    assert (refused m = false) as ->.
    { rewrite refused_in_range; [now rewrite Hm |].
      intros ->. discriminate Hm. }
    destruct (refused n); reflexivity.
  - intros p p' s s' Hp' Hs'. rewrite !page_run. cbn [call_error].
    assert (refused (default (JS.Num 50) s') = false) as ->.
    { rewrite refused_in_range; [now rewrite Hs' |].
      intros E. rewrite E in Hs'. discriminate Hs'. }
    assert (JS.ltb p' 1 = false) as ->
        by (cbn [JS.ltb]; apply Z.ltb_ge; lia).
    destruct (JS.ltb p 1); [reflexivity |].
    destruct (refused (default (JS.Num 50) s)); reflexivity.
  - reflexivity.
Qed.

Lemma last_setting_wins_witness :
  store (BaseEntity.top 10
           (store (BaseEntity.top 500 (BaseEntity.new "account" "account"))))
  = store (BaseEntity.top 10 (BaseEntity.new "account" "account")).
Proof.
  exact (proj1 (last_setting_wins (BaseEntity.new "account" "account"))
           500 10 eq_refl).
Defined.

(** X7. Selecting names in one call or in several is the same: when all
    the names are valid, [select] of a list followed by [select] of another
    leaves the builder that one [select] of the two lists joined leaves, the
    attributes in argument order; [select] with no name succeeds and changes
    nothing. *)
Theorem select_splits :
  forall (this : BaseEntity),
    (forall xs ys : list string,
        all_valid_names (xs ++ ys) = true ->
        bind (BaseEntity.select xs) (fun _ => BaseEntity.select ys) this
        = BaseEntity.select (xs ++ ys) this
        /\ attributes (query (store (BaseEntity.select (xs ++ ys) this)))
           = (attributes (query this) ++ map plainAttribute xs
                ++ map plainAttribute ys)%list)
    /\ BaseEntity.select [] this = (Ok tt, this).
Proof.
  intros this. split.
  - intros xs ys H. unfold bind. rewrite !select_run, H.
    unfold all_valid_names in *. rewrite forallb_app in H.
    apply andb_true_iff in H as [Hx Hy]. rewrite Hx.
    rewrite select_run. unfold all_valid_names. rewrite Hy.
    destruct this as [cls [e attrs fs os ls d t p cnt]].
    unfold set_query, push_attributes. cbn [query entityName entity attributes
      filters orders links distinct top page count store snd].
    rewrite map_app, <- app_assoc. split; reflexivity.
  - rewrite select_run. cbn [all_valid_names forallb map].
    destruct this as [cls [e attrs fs os ls d t p cnt]].
    unfold set_query, push_attributes. cbn [query entityName entity attributes
      filters orders links distinct top page count].
    now rewrite app_nil_r.
Qed.

Lemma select_splits_witness :
  bind (BaseEntity.select ["name"]) (fun _ => BaseEntity.select ["revenue"])
       (BaseEntity.new "account" "account")
  = BaseEntity.select (["name"] ++ ["revenue"])
      (BaseEntity.new "account" "account").
Proof.
  exact (proj1 (proj1 (select_splits (BaseEntity.new "account" "account"))
                  ["name"] ["revenue"] eq_refl)).
Defined.

(** ** The validators *)

(** X8. The two name validators accept exactly the strings that hold a
    character other than white space: an empty or white-space-only name is
    rejected, by [validateAttributeName] with the field attribute and by
    [validateEntityName] with the field entityName, and every other string is
    accepted, inner or surrounding blanks included; an accepted name is
    stored as given, not trimmed. *)
Theorem name_validators_reject_blank_names :
  forall s : string,
    Validator.validateAttributeName s
    = (if whitespace_only s then Throw attributeNameError else Ok tt)
    /\ Validator.validateEntityName s
       = (if whitespace_only s then Throw entityNameError else Ok tt)
    /\ (forall (c : ascii) (a b : string),
           JS.isWhiteSpace c = false ->
           s = a ++ String c b ->
           Validator.validateAttributeName s = Ok tt
           /\ forall this,
               attributes (query (store (BaseEntity.select [s] this)))
               = (attributes (query this) ++ [plainAttribute s])%list).
Proof.
  intros s.
  unfold Validator.validateAttributeName, Validator.validateEntityName.
  rewrite invalid_name_whitespace_only.
  split; [reflexivity |]. split; [reflexivity |].
  intros c a b Hc ->.
  assert (Hw : whitespace_only (a ++ String c b) = false).
  { unfold whitespace_only. rewrite string_forallb_app.
    cbn [string_forallb]. rewrite Hc. cbn. apply andb_false_r. }
  rewrite Hw. split; [reflexivity |].
  intros this. rewrite select_run. unfold all_valid_names. cbn [forallb].
  rewrite invalid_name_whitespace_only, Hw. reflexivity.
Qed.

Lemma name_validators_reject_blank_names_witness :
  Validator.validateAttributeName "  first name "  = Ok tt
  /\ forall this,
      attributes (query (store (BaseEntity.select ["  first name "] this)))
      = (attributes (query this) ++ [plainAttribute "  first name "])%list.
Proof.
  exact (proj2 (proj2 (name_validators_reject_blank_names "  first name "))
           "f"%char "  " "irst name " eq_refl eq_refl).
Defined.

(** X9. [validateOrderType] returns its argument exactly for asc and desc
    and [validateAggregateType] exactly for count, countcolumn, sum, avg, min
    and max; every other string, other letter case included, is rejected
    with an error that names the field order, respectively aggregate, and
    quotes the rejected text. *)
Theorem order_and_aggregate_sets :
  (forall o : string,
      (Validator.validateOrderType o = Ok o <-> o = "asc" \/ o = "desc")
      /\ (~ (o = "asc" \/ o = "desc") ->
          Validator.validateOrderType o
          = Throw (ValidationError ("Invalid order type: " ++ o) "order")))
  /\ (forall g : string,
         (Validator.validateAggregateType g = Ok g
          <-> In g ["count"; "countcolumn"; "sum"; "avg"; "min"; "max"])
         /\ (~ In g ["count"; "countcolumn"; "sum"; "avg"; "min"; "max"] ->
             Validator.validateAggregateType g
             = Throw (ValidationError ("Invalid aggregate type: " ++ g)
                                      "aggregate"))).
Proof.
  split.
  - intros o. unfold Validator.validateOrderType.
    destruct (Validator.includes Validator.validOrders o) eqn:E; cbn [negb].
    + apply includes_In in E. cbn in E.
      split; [split |]; intros; try reflexivity; intuition congruence.
    + apply includes_not_In in E. cbn in E.
      split; [split |]; intros; try discriminate; try reflexivity;
        intuition congruence.
  - intros g. unfold Validator.validateAggregateType.
    destruct (Validator.includes Validator.validAggregates g) eqn:E;
      cbn [negb].
    + apply includes_In in E. split; [split |]; intros; tauto.
    + apply includes_not_In in E.
      split; [split |]; intros; try discriminate; try reflexivity; tauto.
Qed.

Lemma order_and_aggregate_sets_witness :
  Validator.validateOrderType "ASC"
  = Throw (ValidationError "Invalid order type: ASC" "order").
Proof.
  refine (proj2 (proj1 order_and_aggregate_sets "ASC") _).
  intros [H | H]; discriminate H.
Defined.



(** ** More on escaping *)

Section EscapingMore.
Import FetchXMLBuilder.

Lemma length_append (a b : string) :
  String.length (a ++ b) = (String.length a + String.length b)%nat.
Proof. induction a as [|c a IH]; cbn; [reflexivity | now rewrite IH]. Qed.

Lemma escapeChar_plain (c : ascii) :
  is_reserved c = false -> escapeChar c = String c EmptyString.
Proof.
  unfold is_reserved, escapeChar. intros H.
  repeat (apply orb_false_iff in H as [H ?]).
  repeat match goal with E : Ascii.eqb _ _ = false |- _ => rewrite E; clear E end.
  reflexivity.
Qed.

Lemma escapeChar_reserved (c : ascii) :
  is_reserved c = true ->
  exists t, escapeChar c = String "&" t /\ (3 <= String.length t)%nat.
Proof.
  unfold is_reserved, escapeChar. intros H.
  destruct (Ascii.eqb c "&"); [eexists; split; [reflexivity | cbn; lia] |].
  destruct (Ascii.eqb c "<"); [eexists; split; [reflexivity | cbn; lia] |].
  destruct (Ascii.eqb c ">"); [eexists; split; [reflexivity | cbn; lia] |].
  destruct (Ascii.eqb c JS.dquote);
    [eexists; split; [reflexivity | cbn; lia] |].
  destruct (Ascii.eqb c "'"); [eexists; split; [reflexivity | cbn; lia] |].
  discriminate.
Qed.

Lemma escapeChar_markup_free (c : ascii) : markup_free (escapeChar c) = true.
Proof.
  unfold escapeChar.
  destruct (Ascii.eqb c "&"); [reflexivity |].
  destruct (Ascii.eqb c "<") eqn:E1; [reflexivity |].
  destruct (Ascii.eqb c ">") eqn:E2; [reflexivity |].
  destruct (Ascii.eqb c JS.dquote) eqn:E3; [reflexivity |].
  destruct (Ascii.eqb c "'") eqn:E4; [reflexivity |].
  unfold markup_free. cbn [string_forallb]. now rewrite E1, E2, E3, E4.
Qed.

Lemma escapeXml_length (s : string) :
  (String.length s <= String.length (escapeXml s))%nat.
Proof.
  induction s as [|c s IH]; [apply Nat.le_refl |].
  rewrite escapeXml_cons, length_append. cbn [String.length].
  destruct (is_reserved c) eqn:E.
  - destruct (escapeChar_reserved c E) as [t [-> Ht]]. cbn [String.length]. lia.
  - rewrite (escapeChar_plain c E). cbn [String.length]. lia.
Qed.

Lemma escapeXml_fixed (s : string) :
  escapeXml s = s <-> reserved_free s = true.
Proof.
  unfold reserved_free.
  induction s as [|c s IH]; [split; reflexivity |].
  rewrite escapeXml_cons. cbn [string_forallb].
  destruct (is_reserved c) eqn:E; cbn [negb andb].
  - split; [| discriminate]. intros H.
    destruct (escapeChar_reserved c E) as [t [Ht Hlen]].
    rewrite Ht in H. cbn [append] in H. injection H as Hc Hs.
    apply (f_equal String.length) in Hs. rewrite length_append in Hs.
    pose proof (escapeXml_length s). lia.
  - rewrite (escapeChar_plain c E). cbn [append]. rewrite <- IH.
    split; [intros H; now injection H | intros ->; reflexivity].
Qed.

End EscapingMore.

(** X11. Escaped text holds no markup character: whatever the input,
    the output of [escapeXml] contains no less-than sign, no greater-than
    sign, no double quote and no apostrophe, so a text put between the
    quotes of an attribute cannot end the attribute or open a tag. *)
Theorem escaped_text_has_no_markup :
  forall s : string, markup_free (FetchXMLBuilder.escapeXml s) = true.
Proof.
  induction s as [|c s IH]; [reflexivity |].
  rewrite escapeXml_cons. pose proof (escapeChar_markup_free c) as Hc.
  unfold markup_free in *. now rewrite string_forallb_app, Hc, IH.
Qed.

(** X12. Escaping never shortens a text, and it leaves a text unchanged
    exactly when the text holds none of the five reserved characters. *)
Theorem escaping_fixes_plain_text_only :
  forall s : string,
    (String.length s <= String.length (FetchXMLBuilder.escapeXml s))%nat
    /\ (FetchXMLBuilder.escapeXml s = s <-> reserved_free s = true).
Proof.
  intros s. split; [apply escapeXml_length | apply escapeXml_fixed].
Qed.

(** X13. Escaping works piece by piece and loses nothing: the escaped
    text of a concatenation is the concatenation of the escaped texts, and
    two different strings never have the same escaped text. *)
Theorem escaping_is_injective_and_splits :
  (forall a b : string,
      FetchXMLBuilder.escapeXml (a ++ b)
      = FetchXMLBuilder.escapeXml a ++ FetchXMLBuilder.escapeXml b)
  /\ (forall a b : string,
         FetchXMLBuilder.escapeXml a = FetchXMLBuilder.escapeXml b -> a = b).
Proof.
  split; [exact escapeXml_app |].
  intros a b H. apply (f_equal XmlRef.unescapeXml) in H.
  now rewrite !unescapeXml_escapeXml in H.
Qed.

Lemma escaping_is_injective_and_splits_witness :
  FetchXMLBuilder.escapeXml "a<b" = "a&lt;b" /\ "a<b" = "a<b".
Proof.
  split; [reflexivity |].
  exact (proj2 escaping_is_injective_and_splits "a<b" "a<b" eq_refl).
Defined.

(** ** The layout of the document *)

Section Layout.
Import FetchXMLBuilder.

Lemma appendOrder_append (xml : string) (o : OrderBy) :
  appendOrder xml o = xml ++ renderOrder o.
Proof. reflexivity. Qed.

Lemma buildOrders_closed (os : list OrderBy) :
  buildOrders os = concat_map renderOrder os.
Proof.
  unfold buildOrders.
  now rewrite (fold_left_append _ renderOrder _ appendOrder_append).
Qed.

Lemma build_closed (x : FetchQuery) :
  build x
  = "<fetch"
      ++ (match distinct x with
          | Some true => " distinct=" ++ JS.q ++ "true" ++ JS.q
          | _ => EmptyString
          end)
      ++ numberAttribute "top" (top x)
      ++ numberAttribute "page" (page x)
      ++ numberAttribute "count" (count x)
      ++ ">"
      ++ "<entity name=" ++ JS.q ++ entity x ++ JS.q ++ ">"
      ++ concat_map renderAttribute (attributes x)
      ++ opt_render buildFilter (filters x)
      ++ opt_render (concat_map renderOrder) (orders x)
      ++ opt_render (concat_map buildLinkEntity) (links x)
      ++ "</entity></fetch>".
Proof.
  unfold build. rewrite buildAttributes_closed.
  destruct x as [e attrs fs os ls d t p c].
  cbn [distinct top page count entity attributes filters orders links].
  generalize (concat_map renderAttribute attrs) as A. intros A.
  assert (HF : forall xml,
             match fs with Some f => xml ++ buildFilter f | None => xml end
             = xml ++ opt_render buildFilter fs).
  { intros xml. destruct fs; cbn [opt_render]; now rewrite ?append_nil_r. }
  assert (HO : forall xml,
             match os with Some o => xml ++ buildOrders o | None => xml end
             = xml ++ opt_render (concat_map renderOrder) os).
  { intros xml. destruct os; cbn [opt_render];
      now rewrite ?append_nil_r, ?buildOrders_closed. }
  assert (HL : forall xml,
             match ls with Some l => xml ++ buildLinks l | None => xml end
             = xml ++ opt_render (concat_map buildLinkEntity) ls).
  { intros xml. destruct ls; cbn [opt_render];
      now rewrite ?append_nil_r, ?buildLinks_closed. }
  rewrite HL, HO, HF. clear HF HO HL.
  generalize (opt_render buildFilter fs) as F.
  generalize (opt_render (concat_map renderOrder) os) as O.
  generalize (opt_render (concat_map buildLinkEntity) ls) as L.
  intros L O F.
  unfold numberAttribute.
  destruct d as [[|]|];
    (destruct t as [t|]; [destruct (JS.truthy_number t) |]);
    (destruct p as [p|]; [destruct (JS.truthy_number p) |]);
    (destruct c as [c|]; [destruct (JS.truthy_number c) |]);
    str_norm; reflexivity.
Qed.

End Layout.

(** X14. The document always has the same layout: the [fetch] tag with
    [distinct], [top], [page] and [count] in that order, each only when set,
    then the [entity] element holding the attributes, the filter tree, the
    orders and the link entities in that order, each list in its own order.
    A number field that holds 0 and a [distinct] that holds false are left
    out as if they were not set. *)
Theorem document_layout :
  forall x : FetchQuery,
    FetchXMLBuilder.build x
    = "<fetch"
        ++ (match distinct x with
            | Some true => " distinct=" ++ JS.q ++ "true" ++ JS.q
            | _ => EmptyString
            end)
        ++ numberAttribute "top" (top x)
        ++ numberAttribute "page" (page x)
        ++ numberAttribute "count" (count x)
        ++ ">"
        ++ "<entity name=" ++ JS.q ++ entity x ++ JS.q ++ ">"
        ++ concat_map renderAttribute (attributes x)
        ++ opt_render FetchXMLBuilder.buildFilter (filters x)
        ++ opt_render (concat_map renderOrder) (orders x)
        ++ opt_render (concat_map FetchXMLBuilder.buildLinkEntity) (links x)
        ++ "</entity></fetch>"
    /\ FetchXMLBuilder.build (set_top (Some 0) x)
       = FetchXMLBuilder.build (set_top None x)
    /\ FetchXMLBuilder.build (set_page (Some 0) x)
       = FetchXMLBuilder.build (set_page None x)
    /\ FetchXMLBuilder.build (set_count (Some 0) x)
       = FetchXMLBuilder.build (set_count None x)
    /\ FetchXMLBuilder.build (set_distinct (Some false) x)
       = FetchXMLBuilder.build (set_distinct None x).
Proof.
  intros x. split; [apply build_closed |].
  rewrite !build_closed. repeat split.
Qed.

Section FilterLayout.
Import FetchXMLBuilder.

Lemma concat_map_app {A} (f : A -> string) (l1 l2 : list A) :
  concat_map f (l1 ++ l2) = concat_map f l1 ++ concat_map f l2.
Proof.
  induction l1 as [|x l1 IH]; cbn [app concat_map]; [reflexivity |].
  now rewrite IH, append_assoc.
Qed.

End FilterLayout.

(** X15. A filter group renders as its opening tag with the group's type,
    then its entries in list order (a condition as a [condition] element, a
    nested group as a nested [filter] element, whatever the depth), then the
    closing tag.  A group without entries still renders both tags, and an
    entry added at the end of a group lands right before the closing tag
    with the text before it unchanged. *)
Theorem filter_layout :
  forall (t : string) (cs : list FilterEntry),
    FetchXMLBuilder.buildFilter (mkFilterGroup t cs)
    = "<filter type=" ++ JS.q ++ t ++ JS.q ++ ">"
        ++ concat_map renderEntry cs ++ "</filter>"
    /\ FetchXMLBuilder.buildFilter (mkFilterGroup t [])
       = "<filter type=" ++ JS.q ++ t ++ JS.q ++ "></filter>"
    /\ (forall e : FilterEntry,
           FetchXMLBuilder.buildFilter (mkFilterGroup t (cs ++ [e]))
           = "<filter type=" ++ JS.q ++ t ++ JS.q ++ ">"
               ++ concat_map renderEntry cs ++ renderEntry e ++ "</filter>")
    /\ (forall g : FilterGroup,
           renderEntry (EGroup g) = FetchXMLBuilder.buildFilter g)
    /\ (forall c : FilterCondition,
           renderEntry (ECondition c) = FetchXMLBuilder.buildCondition c).
Proof.
  intros t cs. rewrite !buildFilter_closed.
  split; [reflexivity |]. split; [reflexivity |].
  split; [| split; reflexivity].
  intros e. rewrite buildFilter_closed, concat_map_app.
  cbn [concat_map]. str_norm. reflexivity.
Qed.

(** ** Reading rendered attributes and orders back *)

Section ReadingBack.
Import FetchXMLBuilder XmlReader.

Lemma renderAttribute_closed (a : Attribute) :
  renderAttribute a
  = "<attribute"
      ++ (" " ++ "name" ++ "=" ++ JS.q ++ escapeXml (attr_name a) ++ JS.q
      ++ (if JS.truthy_opt_string (attr_alias a)
          then " " ++ "alias" ++ "=" ++ JS.q
                   ++ escapeXml (default EmptyString (attr_alias a)) ++ JS.q
                   ++ match attr_aggregate a with
                      | Some g =>
                          " " ++ "aggregate" ++ "=" ++ JS.q ++ g ++ JS.q ++ "/>"
                      | None => "/>"
                      end
          else match attr_aggregate a with
               | Some g =>
                   " " ++ "aggregate" ++ "=" ++ JS.q ++ g ++ JS.q ++ "/>"
               | None => "/>"
               end)).
Proof.
  unfold renderAttribute, appendAttribute.
  destruct (attr_alias a) as [al|];
    cbn [JS.truthy_opt_string default];
    [destruct (JS.truthy_string al) |];
    destruct (attr_aggregate a) as [g|];
    str_norm; reflexivity.
Qed.

Lemma starts_with_LF_escapeXml (t : string) :
  XmlStrict.starts_with_LF (escapeXml t) = XmlStrict.starts_with_LF t.
Proof.
  destruct t as [|c t]; [reflexivity |].
  rewrite escapeXml_cons. cbn [XmlStrict.starts_with_LF].
  destruct (is_reserved c) eqn:E.
  - destruct (escapeChar_reserved c E) as [t' [-> _]].
    cbn [append XmlStrict.starts_with_LF].
    destruct (Ascii.eqb_spec c XmlStrict.LF) as [->|]; [discriminate E |].
    reflexivity.
  - now rewrite (escapeChar_plain c E).
Qed.

Lemma attribute_value_reserved (c : ascii) (rest : string) :
  is_reserved c = true ->
  XmlStrict.attribute_value_from O (escapeChar c ++ rest)
  = XmlStrict.cons_char c (XmlStrict.attribute_value_from O rest).
Proof.
  unfold is_reserved, escapeChar.
  destruct (Ascii.eqb_spec c "&") as [->|]; [reflexivity |].
  destruct (Ascii.eqb_spec c "<") as [->|]; [reflexivity |].
  destruct (Ascii.eqb_spec c ">") as [->|]; [reflexivity |].
  destruct (Ascii.eqb_spec c JS.dquote) as [->|]; [reflexivity |].
  destruct (Ascii.eqb_spec c "'") as [->|]; [reflexivity |].
  discriminate.
Qed.

Lemma reserved_is_text (c : ascii) :
  is_reserved c = true ->
  XmlStrict.is_forbidden c = false
  /\ Ascii.eqb c XmlStrict.CR = false
  /\ Ascii.eqb c XmlStrict.LF = false
  /\ Ascii.eqb c XmlStrict.TAB = false.
Proof.
  unfold is_reserved.
  destruct (Ascii.eqb_spec c "&") as [->|]; [repeat split |].
  destruct (Ascii.eqb_spec c "<") as [->|]; [repeat split |].
  destruct (Ascii.eqb_spec c ">") as [->|]; [repeat split |].
  destruct (Ascii.eqb_spec c JS.dquote) as [->|]; [repeat split |].
  destruct (Ascii.eqb_spec c "'") as [->|]; [repeat split |].
  discriminate.
Qed.

(** What a strict reader makes of escaped text: nothing when the original
    holds a character XML does not allow, and otherwise the original with
    its line breaks and TABs turned into spaces. *)
Lemma attribute_value_escapeXml (v : string) :
  XmlStrict.attribute_value (escapeXml v)
  = if xml_text v then Some (XmlStrict.normalised v) else None.
Proof.
  unfold XmlStrict.attribute_value, xml_text.
  induction v as [|c v IH]; [reflexivity |].
  rewrite escapeXml_cons. cbn [string_forallb XmlStrict.normalised].
  destruct (is_reserved c) eqn:E.
  - rewrite (attribute_value_reserved c _ E), IH.
    destruct (reserved_is_text c E) as (-> & -> & -> & ->).
    cbn [negb andb orb].
    destruct (string_forallb _ v); reflexivity.
  - rewrite (escapeChar_plain c E). cbn [append].
    unfold is_reserved in E.
    repeat (apply orb_false_iff in E as [E ?]).
    cbn [XmlStrict.attribute_value_from].
    repeat match goal with
           | H : Ascii.eqb c _ = false |- _ => rewrite H; clear H
           end.
    rewrite starts_with_LF_escapeXml, IH.
    destruct (XmlStrict.is_forbidden c) eqn:Ef; cbn [negb andb].
    + reflexivity.
    + destruct (Ascii.eqb c XmlStrict.CR);
        [destruct (XmlStrict.starts_with_LF v) |];
        try destruct (Ascii.eqb c XmlStrict.LF || Ascii.eqb c XmlStrict.TAB);
        destruct (string_forallb _ v); reflexivity.
Qed.

Lemma control_free_text (s : string) :
  control_free s = true ->
  xml_text s = true /\ XmlStrict.normalised s = s.
Proof.
  unfold control_free, xml_text.
  induction s as [|c s IH]; [split; reflexivity |].
  cbn [string_forallb XmlStrict.normalised]. intros H.
  apply andb_true_iff in H as [Hc Hs]. destruct (IH Hs) as [-> ->].
  assert (Hlt : (nat_of_ascii c <? 32)%nat = false).
  { apply Nat.leb_le in Hc. apply Nat.ltb_ge. exact Hc. }
  unfold XmlStrict.is_forbidden. rewrite Hlt. cbn [andb negb].
  assert (Hne : forall n, (n < 32)%nat ->
                          Ascii.eqb c (ascii_of_nat n) = false).
  { intros n Hn. apply Ascii.eqb_neq. intros ->.
    rewrite nat_ascii_embedding in Hlt by lia.
    apply Nat.ltb_ge in Hlt. lia. }
  unfold XmlStrict.CR, XmlStrict.LF, XmlStrict.TAB.
  rewrite !Hne by lia. split; reflexivity.
Qed.

Lemma strict_step (n : nat) (k v rest : string) :
  string_forallb (fun c => negb (Ascii.eqb c "=")) k = true ->
  XmlStrict.is_name k = true ->
  XmlStrict.read_attributes (S n)
    (" " ++ k ++ "=" ++ JS.q ++ escapeXml v ++ JS.q ++ rest)
  = if xml_text v
    then option_map (cons (k, XmlStrict.normalised v))
           (XmlStrict.read_attributes n rest)
    else None.
Proof.
  intros Hk Hname.
  change (" " ++ k ++ "=" ++ JS.q ++ escapeXml v ++ JS.q ++ rest)
    with (String " " (k ++ String "=" (String JS.dquote
                                         (escapeXml v
                                            ++ String JS.dquote rest)))).
  cbn [XmlStrict.read_attributes].
  change (String " " ?x =? "/>")%string with false.
  cbn iota. rewrite Ascii.eqb_refl, (read_until_free _ _ _ Hk).
  rewrite Ascii.eqb_refl, Hname. cbn [andb].
  rewrite (read_until_free _ _ _ (escapeXml_quote_free v)).
  rewrite attribute_value_escapeXml.
  destruct (xml_text v); reflexivity.
Qed.

(** A text the renderer inserts unescaped, from one of its fixed sets. *)
Lemma strict_step_raw (n : nat) (k g rest : string) :
  string_forallb (fun c => negb (Ascii.eqb c "=")) k = true ->
  XmlStrict.is_name k = true ->
  quote_free g = true ->
  XmlStrict.attribute_value g = Some g ->
  XmlStrict.read_attributes (S n)
    (" " ++ k ++ "=" ++ JS.q ++ g ++ JS.q ++ rest)
  = option_map (cons (k, g)) (XmlStrict.read_attributes n rest).
Proof.
  intros Hk Hname Hq Hg.
  change (" " ++ k ++ "=" ++ JS.q ++ g ++ JS.q ++ rest)
    with (String " " (k ++ String "=" (String JS.dquote
                                         (g ++ String JS.dquote rest)))).
  cbn [XmlStrict.read_attributes].
  change (String " " ?x =? "/>")%string with false.
  cbn iota. rewrite Ascii.eqb_refl, (read_until_free _ _ _ Hk).
  rewrite Ascii.eqb_refl, Hname. cbn [andb].
  rewrite (read_until_free _ _ _ Hq), Hg. reflexivity.
Qed.

Lemma valid_aggregate_strict (g : string) :
  Validator.includes Validator.validAggregates g = true ->
  quote_free g = true /\ XmlStrict.attribute_value g = Some g.
Proof.
  intros H. apply includes_In in H.
  unfold Validator.validAggregates in H. cbn [In] in H.
  repeat (destruct H as [<-|H]; [split; reflexivity |]).
  contradiction.
Qed.

Lemma strict_attribute (a : Attribute) :
  opt_forall (Validator.includes Validator.validAggregates)
    (attr_aggregate a) = true ->
  XmlStrict.element_attributes "attribute" (renderAttribute a)
  = if xml_text (attr_name a)
       && (negb (JS.truthy_opt_string (attr_alias a))
           || xml_text (default EmptyString (attr_alias a)))
    then Some ([("name", XmlStrict.normalised (attr_name a))]
                 ++ (if JS.truthy_opt_string (attr_alias a)
                     then [("alias",
                            XmlStrict.normalised
                              (default EmptyString (attr_alias a)))]
                     else [])
                 ++ (match attr_aggregate a with
                     | Some g => [("aggregate", g)]
                     | None => []
                     end))%list
    else None.
Proof.
  intros Hg.
  unfold XmlStrict.element_attributes. rewrite renderAttribute_closed.
  rewrite strip_prefix_app.
  match goal with
  | |- context [XmlStrict.read_attributes
                  (String.length ("<attribute" ++ ?r)) _] =>
      change (String.length ("<attribute" ++ r))
        with (S (S (S (S (6 + String.length r)))))
  end.
  rewrite strict_step by reflexivity.
  assert (Hagg :
    forall n,
      XmlStrict.read_attributes (S (S n))
        (match attr_aggregate a with
         | Some g => " " ++ "aggregate" ++ "=" ++ JS.q ++ g ++ JS.q ++ "/>"
         | None => "/>"
         end)
      = Some (match attr_aggregate a with
              | Some g => [("aggregate", g)]
              | None => []
              end)).
  { intros n. destruct (attr_aggregate a) as [g|]; [| reflexivity].
    cbn [opt_forall] in Hg.
    destruct (valid_aggregate_strict g Hg) as [Hq Hv].
    now rewrite strict_step_raw. }
  destruct (xml_text (attr_name a)); cbn [andb]; [| reflexivity].
  destruct (JS.truthy_opt_string (attr_alias a)); cbn [negb orb].
  - rewrite strict_step by reflexivity.
    destruct (xml_text (default EmptyString (attr_alias a)));
      [| reflexivity].
    rewrite Hagg. cbn [option_map app].
    destruct (attr_aggregate a); reflexivity.
  - rewrite Hagg. cbn [option_map app].
    destruct (attr_aggregate a); reflexivity.
Qed.

Lemma strict_order (o : OrderBy) :
  XmlStrict.element_attributes "order" (renderOrder o)
  = if xml_text (order_attribute o)
    then Some [("attribute", XmlStrict.normalised (order_attribute o));
               ("descending",
                if (order_order o =? "desc")%string
                then "true" else "false")]
    else None.
Proof.
  unfold XmlStrict.element_attributes.
  assert (E : renderOrder o
              = "<order"
                  ++ (" " ++ "attribute" ++ "=" ++ JS.q
                          ++ escapeXml (order_attribute o) ++ JS.q
                  ++ (" " ++ "descending" ++ "=" ++ JS.q
                          ++ JS.boolean_toString
                               (order_order o =? "desc")%string
                          ++ JS.q ++ "/>"))).
  { unfold renderOrder, appendOrder. str_norm. reflexivity. }
  rewrite E, strip_prefix_app.
  match goal with
  | |- context [XmlStrict.read_attributes
                  (String.length ("<order" ++ ?r)) _] =>
      change (String.length ("<order" ++ r))
        with (S (S (S (S (2 + String.length r)))))
  end.
  rewrite strict_step by reflexivity.
  destruct (xml_text (order_attribute o)); [| reflexivity].
  rewrite strict_step_raw;
    try reflexivity;
    destruct (order_order o =? "desc")%string; reflexivity.
Qed.

End ReadingBack.

(** X16. Read by a strict XML reader, a rendered [attribute] element gives
    back the name and the alias (when it is a non-empty string; an absent or
    empty alias gives no alias attribute) with every reserved character
    restored, and the aggregate when there is one; but line breaks and TABs
    come back as spaces, because the renderer writes them unescaped and an
    XML reader normalises them, and when the name or the rendered alias
    holds another control character the element is not well formed and
    cannot be read at all.  A name or alias without control characters
    comes back exactly as given.  The name validator accepts such names: a
    name with a TAB inside passes it and reads back with a space. *)
Theorem attribute_element_reads_back :
  (forall a : Attribute,
      opt_forall (Validator.includes Validator.validAggregates)
        (attr_aggregate a) = true ->
      XmlStrict.element_attributes "attribute" (renderAttribute a)
      = if xml_text (attr_name a)
           && (negb (JS.truthy_opt_string (attr_alias a))
               || xml_text (default EmptyString (attr_alias a)))
        then Some ([("name", XmlStrict.normalised (attr_name a))]
                     ++ (if JS.truthy_opt_string (attr_alias a)
                         then [("alias",
                                XmlStrict.normalised
                                  (default EmptyString (attr_alias a)))]
                         else [])
                     ++ (match attr_aggregate a with
                         | Some g => [("aggregate", g)]
                         | None => []
                         end))%list
        else None)
  /\ (forall s : string,
         control_free s = true ->
         xml_text s = true /\ XmlStrict.normalised s = s)
  /\ (forall name : string,
         control_free name = true ->
         XmlStrict.element_attributes "attribute"
           (renderAttribute (plainAttribute name))
         = Some [("name", name)])
  /\ (Validator.validateAttributeName ("a" ++ String XmlStrict.TAB "b")
      = Ok tt
      /\ XmlStrict.element_attributes "attribute"
           (renderAttribute
              (plainAttribute ("a" ++ String XmlStrict.TAB "b")))
         = Some [("name", "a b")])
  /\ (Validator.validateAttributeName ("a" ++ String (ascii_of_nat 1) "b")
      = Ok tt
      /\ XmlStrict.element_attributes "attribute"
           (renderAttribute
              (plainAttribute ("a" ++ String (ascii_of_nat 1) "b")))
         = None).
Proof.
  split; [exact strict_attribute |].
  split; [exact control_free_text |].
  split.
  { intros name H. rewrite strict_attribute by reflexivity.
    destruct (control_free_text name H) as [Ht Hn].
    cbn [plainAttribute attr_name attr_alias attr_aggregate
         JS.truthy_opt_string negb orb app].
    now rewrite Ht, Hn. }
  split; split; reflexivity.
Qed.

Lemma attribute_element_reads_back_witness :
  XmlStrict.element_attributes "attribute"
    (renderAttribute (mkAttribute "a<b" (Some EmptyString) (Some "sum")))
  = Some [("name", "a<b"); ("aggregate", "sum")].
Proof.
  exact (proj1 attribute_element_reads_back
           (mkAttribute "a<b" (Some EmptyString) (Some "sum")) eq_refl).
Defined.

(** X17. Read by a strict XML reader, a rendered [order] element gives
    back the attribute name with every reserved character restored and a
    [descending] flag that is true exactly when the stored order is desc;
    line breaks and TABs in the name come back as spaces, and a name with
    another control character makes the element ill formed.  After a
    successful [orderBy] with the order omitted the new order is asc, comes
    last, and, for a name without control characters, reads back as that
    name with descending false. *)
Theorem order_element_reads_back :
  (forall o : OrderBy,
      XmlStrict.element_attributes "order" (renderOrder o)
      = if xml_text (order_attribute o)
        then Some [("attribute", XmlStrict.normalised (order_attribute o));
                   ("descending",
                    if (order_order o =? "desc")%string
                    then "true" else "false")]
        else None)
  /\ (forall (a : string) (this : BaseEntity),
         whitespace_only a = false ->
         orders (query (store (BaseEntity.orderBy a None this)))
         = Some (default [] (orders (query this)) ++ [mkOrderBy a "asc"])%list
         /\ (control_free a = true ->
             XmlStrict.element_attributes "order"
               (renderOrder (mkOrderBy a "asc"))
             = Some [("attribute", a); ("descending", "false")])).
Proof.
  split; [exact strict_order |].
  intros a this Ha. rewrite orderBy_run. cbn [call_error default].
  rewrite invalid_name_whitespace_only, Ha.
  split; [reflexivity |].
  intros Hc. rewrite strict_order. cbn [order_attribute order_order].
  destruct (control_free_text a Hc) as [-> ->]. reflexivity.
Qed.

Lemma order_element_reads_back_witness :
  orders (query (store (BaseEntity.orderBy "name" None
                          (BaseEntity.new "account" "account"))))
  = Some [mkOrderBy "name" "asc"]
  /\ XmlStrict.element_attributes "order"
       (renderOrder (mkOrderBy "name" "asc"))
     = Some [("attribute", "name"); ("descending", "false")].
Proof.
  destruct (proj2 order_element_reads_back "name"
              (BaseEntity.new "account" "account") eq_refl) as [H1 H2].
  split; [exact H1 | exact (H2 eq_refl)].
Defined.

(** ** The join builder *)

Section JoinBuilderRuns.

Lemma link_selectAs_run (a al : string) (l : LinkEntity) :
  JoinBuilder.selectAs a al l
  = if Validator.invalid_name a then (Throw attributeNameError, l)
    else if Validator.invalid_name al then (Throw attributeNameError, l)
    else (Ok tt, link_push_attributes [mkAttribute a (Some al) None] l).
Proof.
  unfold JoinBuilder.selectAs, bind, call, modify,
    Validator.validateAttributeName.
  destruct (Validator.invalid_name a); [reflexivity |].
  destruct (Validator.invalid_name al); reflexivity.
Qed.

Lemma perform_join_run (c : JoinCall) (l : LinkEntity) :
  perform_join c l
  = match call_error (as_builder_call c) with
    | Some e => (Throw e, l)
    | None => (Ok tt, link_effect c l)
    end.
Proof.
  destruct c as [xs | a al | a op v];
    cbn [perform_join as_builder_call call_error link_effect].
  - rewrite link_select_run. destruct (all_valid_names xs); reflexivity.
  - rewrite link_selectAs_run.
    destruct (Validator.invalid_name a); [reflexivity |].
    destruct (Validator.invalid_name al); reflexivity.
  - rewrite link_where_run.
    destruct (Validator.invalid_name a); [reflexivity |].
    destruct (Validator.includes Validator.validOperators op); reflexivity.
Qed.

Lemma update_nth_last {A} (f : A -> A) (l : list A) (x : A) :
  update_nth (length l) f (l ++ [x]) = (l ++ [f x])%list.
Proof.
  induction l as [|y l IH]; cbn; [reflexivity | now rewrite IH].
Qed.

Lemma nth_error_last {A} (l : list A) (x : A) :
  nth_error (l ++ [x]) (length l) = Some x.
Proof. induction l as [|y l IH]; cbn; [reflexivity | exact IH]. Qed.

Lemma on_link_run {A} (jb : JoinBuilderRef) (m : M LinkEntity A)
      (this : BaseEntity) :
  BaseEntity.on_link jb m this
  = match nth_error (default [] (links (query this))) (link jb) with
    | Some l =>
        (lift_outcome (outcome (m l)),
         set_query
           (fun x =>
              set_links
                (option_map (update_nth (link jb) (fun _ => store (m l)))
                            (links x)) x)
           this)
    | None => (Ok None, this)
    end.
Proof.
  unfold BaseEntity.on_link, bind, get.
  destruct (nth_error (default [] (links (query this))) (link jb)) as [l|];
    [| reflexivity].
  unfold outcome, store. destruct (m l) as [[a|e] l']; reflexivity.
Qed.

End JoinBuilderRuns.

(** X18. The join builder's [select], [selectAs] and [where] check their
    arguments exactly as the entity builder's calls of the same name do and
    throw the same errors; a call that throws leaves the link as it was, and
    a call that returns has appended its attributes or its condition to the
    link. *)
Theorem join_builder_checks_like_entity_builder :
  forall (c : JoinCall) (l : LinkEntity) (this : BaseEntity),
    outcome (perform_join c l) = outcome (perform (as_builder_call c) this)
    /\ (outcome (perform_join c l) <> Ok tt -> store (perform_join c l) = l)
    /\ (outcome (perform_join c l) = Ok tt ->
        store (perform_join c l) = link_effect c l).
Proof.
  intros c l this. rewrite perform_join_run, perform_run.
  destruct (call_error (as_builder_call c)); cbn [outcome store fst snd];
    repeat split; intros; try reflexivity; congruence.
Qed.

Lemma join_builder_checks_like_entity_builder_witness :
  store (perform_join (JoinSelect ["fullname"; " "])
           (mkLinkEntity "contact" "accountid" "parentcustomerid"
              None None [] None None))
  = mkLinkEntity "contact" "accountid" "parentcustomerid" None None
      [] None None.
Proof.
  refine (proj1 (proj2 (join_builder_checks_like_entity_builder
                          (JoinSelect ["fullname"; " "])
                          (mkLinkEntity "contact" "accountid"
                             "parentcustomerid" None None [] None None)
                          (BaseEntity.new "account" "account"))) _).
  vm_compute. discriminate.
Defined.

(** X19. A join builder call never touches what identifies the join and
    never nests a join: the link's name, from, to, alias and link type and
    its list of nested links are the same after every call, and its
    attributes and conditions are the old ones followed by what the call
    added. *)
Theorem join_builder_keeps_the_join :
  forall (c : JoinCall) (l : LinkEntity),
    let l' := store (perform_join c l) in
    link_name l' = link_name l
    /\ link_from l' = link_from l
    /\ link_to l' = link_to l
    /\ link_alias l' = link_alias l
    /\ link_linkType l' = link_linkType l
    /\ link_links l' = link_links l
    /\ (exists new,
           link_attributes l' = (link_attributes l ++ new)%list)
    /\ (exists new,
           link_conditions l' = (link_conditions l ++ new)%list).
Proof.
  intros c l l'. subst l'. rewrite perform_join_run.
  destruct (call_error (as_builder_call c)); cbn [store snd].
  { repeat split; exists []; now rewrite app_nil_r. }
  destruct l as [n f t al k attrs fs ls].
  destruct c as [xs | a al' | a op v]; cbn [link_effect link_push_attributes
    link_set_filters link_name link_from link_to link_alias link_linkType
    link_links link_attributes link_filters link_conditions];
    repeat split;
    try (eexists; reflexivity);
    try (exists []; now rewrite app_nil_r).
  destruct fs as [[ft cs]|]; cbn [add_condition filter_conditions];
    eexists; reflexivity.
Qed.

(** X20. [join] appends a link with the given names, no attribute, no
    filter and no nested link after the links the query already has, and the
    builder it returns is bound to that new link: a call made through the
    returned builder has the outcome the call has on the new link, and
    leaves the query [join] was called on with the link as the call left it
    in last position. *)
Theorem join_returns_builder_of_new_link :
  forall (e f t : string) (al k : option string) (this b' : BaseEntity)
         (jb : JoinBuilderRef),
    BaseEntity.join e f t al k this = (Ok jb, b') ->
    let fresh := mkLinkEntity e f t al k [] None None in
    links (query b')
    = Some (default [] (links (query this)) ++ [fresh])%list
    /\ nth_error (default [] (links (query b'))) (link jb) = Some fresh
    /\ forall c : JoinCall,
        BaseEntity.on_link jb (perform_join c) b'
        = (lift_outcome (outcome (perform_join c fresh)),
           mkBaseEntity (entityName this)
             (set_links
                (Some (default [] (links (query this))
                         ++ [store (perform_join c fresh)])%list)
                (query this))).
Proof.
  intros e f t al k this b' jb H fresh.
  rewrite join_run in H.
  destruct (call_error (CallJoin e f t al k)); [discriminate |].
  injection H as <- <-.
  cbn [call_effect query links set_links default link].
  split; [reflexivity |]. split; [apply nth_error_last |].
  intros c. rewrite on_link_run.
  cbn [query links set_links default link]. rewrite nth_error_last.
  unfold set_query. cbn [query links set_links option_map entityName entity
    attributes filters orders distinct top page count].
  rewrite update_nth_last. reflexivity.
Qed.

Lemma join_returns_builder_of_new_link_witness :
  nth_error
    (default []
       (links (query (store (BaseEntity.join "contact" "accountid"
                               "parentcustomerid" None None
                               (BaseEntity.new "account" "account"))))))
    0
  = Some (mkLinkEntity "contact" "accountid" "parentcustomerid" None None
            [] None None).
Proof.
  exact (proj1 (proj2 (join_returns_builder_of_new_link
                         "contact" "accountid" "parentcustomerid" None None
                         (BaseEntity.new "account" "account")
                         _ (mkJoinBuilderRef 0) eq_refl))).
Defined.

(** ** What the builders store is always checked *)

Section Validity.

(** Unfold the validity tests down to the name and membership checks. *)
Ltac vsimpl :=
  cbn [forallb];
  unfold valid_entry, valid_attribute, valid_order, valid_link, valid_name;
  cbn [cond_attribute cond_operator attr_name attr_alias attr_aggregate
       order_attribute order_order link_name link_from link_to
       link_attributes link_filters link_links forallb is_undefined
       opt_forall].


Lemma checked_query_parts (x : FetchQuery) :
  checked_query x = true
  <-> forallb valid_attribute (attributes x) = true
      /\ opt_forall flat_and_group (filters x) = true
      /\ opt_forall (forallb valid_order) (orders x) = true
      /\ opt_forall (forallb valid_link) (links x) = true
      /\ opt_forall (fun n => negb (refused n)) (top x) = true
      /\ checked_paging (page x) (count x) = true
      /\ opt_forall (fun d => d) (distinct x) = true.
Proof. unfold checked_query. rewrite !andb_true_iff. tauto. Qed.

Lemma in_range_split (n : JS.number) :
  in_range n = negb (refused n) && not_NaN n.
Proof.
  destruct n as [z| | |]; try reflexivity.
  rewrite refused_in_range by discriminate.
  now rewrite negb_involutive, andb_true_r.
Qed.

Lemma at_least_one_split (n : JS.number) :
  at_least_one n = negb (JS.ltb n 1) && not_NaN n.
Proof.
  destruct n as [z| | |]; try reflexivity.
  rewrite below_one by discriminate.
  now rewrite negb_involutive, andb_true_r.
Qed.

Lemma valid_query_split (x : FetchQuery) :
  valid_query x = checked_query x && finite_numbers x.
Proof.
  unfold valid_query, checked_query, finite_numbers.
  destruct (forallb valid_attribute (attributes x)); [| reflexivity].
  destruct (opt_forall flat_and_group (filters x)); [| reflexivity].
  destruct (opt_forall (forallb valid_order) (orders x)); [| reflexivity].
  destruct (opt_forall (forallb valid_link) (links x)); [| reflexivity].
  destruct (opt_forall (fun d => d) (distinct x));
    [| now rewrite !andb_false_r].
  rewrite !andb_true_r. cbn [andb].
  destruct (top x) as [t|], (page x) as [p|], (count x) as [c|];
    cbn [opt_forall valid_paging checked_paging andb];
    rewrite ?in_range_split, ?at_least_one_split;
    repeat match goal with
           | |- context [refused ?n] => destruct (refused n)
           | |- context [JS.ltb ?a ?b] => destruct (JS.ltb a b)
           | |- context [not_NaN ?n] => destruct (not_NaN n)
           end;
    reflexivity.
Qed.

Lemma valid_name_id (s : string) : valid_name (s ++ "id") = true.
Proof.
  unfold valid_name. rewrite invalid_name_whitespace_only.
  unfold whitespace_only. rewrite string_forallb_app.
  cbn. now rewrite andb_false_r.
Qed.

Lemma plain_attributes_valid (xs : list string) :
  all_valid_names xs = true ->
  forallb (fun a => valid_attribute a && is_undefined (attr_aggregate a))
    (map plainAttribute xs) = true.
Proof.
  unfold all_valid_names. induction xs as [|x xs IH]; [reflexivity |].
  cbn [forallb map]. intros H. apply andb_true_iff in H as [Hx Hxs].
  apply negb_true_iff in Hx.
  rewrite (IH Hxs). unfold plainAttribute. vsimpl. now rewrite Hx.
Qed.

Lemma forallb_weaken {A} (p q : A -> bool) (l : list A) :
  (forall a, p a = true -> q a = true) ->
  forallb p l = true -> forallb q l = true.
Proof.
  intros Hpq. rewrite !forallb_forall. auto.
Qed.

Lemma add_condition_flat (a op : string) (v : JS.value)
      (fs : option FilterGroup) :
  Validator.invalid_name a = false ->
  Validator.includes Validator.validOperators op = true ->
  opt_forall flat_and_group fs = true ->
  flat_and_group (add_condition (mkFilterCondition a op v) fs) = true.
Proof.
  intros Ha Hop Hfs. unfold flat_and_group in *.
  destruct fs as [[t cs]|];
    cbn [add_condition opt_forall filter_type filter_conditions] in *.
  - apply andb_true_iff in Hfs as [Ht Hcs].
    rewrite Ht, forallb_app, Hcs. vsimpl. now rewrite Ha, Hop.
  - vsimpl. rewrite Ha, Hop. reflexivity.
Qed.

Lemma aggregate_text_valid (m : AggregateMethod) :
  Validator.includes Validator.validAggregates (aggregate_text m) = true.
Proof. destruct m; reflexivity. Qed.

Lemma call_effect_checked (c : BuilderCall) (this : BaseEntity) :
  call_error c = None ->
  checked_query (query this) = true ->
  checked_query (call_effect c this) = true.
Proof.
  intros E H. apply checked_query_parts in H.
  destruct H as (Hat & Hfs & Hos & Hls & Htop & Hpg & Hd).
  apply checked_query_parts.
  destruct this as [cls [e attrs fs os ls d t p cnt]].
  cbn [query attributes filters orders links top page count distinct] in *.
  destruct c as [xs | a al | m a al | a op v | a o | n | pg s | en f tt' al k];
    cbn [call_error] in E;
    cbn [call_effect query push_attributes set_filters set_orders set_top
         set_page set_count set_links attributes filters orders links top page
         count distinct entity].
  - destruct (all_valid_names xs) eqn:Hxs; [| discriminate].
    repeat split; try assumption.
    rewrite forallb_app, Hat.
    apply plain_attributes_valid in Hxs.
    apply (forallb_weaken _ valid_attribute) in Hxs.
    + exact Hxs.
    + intros x Hx. now apply andb_true_iff in Hx as [Hx _].
  - destruct (Validator.invalid_name a) eqn:Ha; [discriminate |].
    destruct (Validator.invalid_name al) eqn:Hal; [discriminate |].
    repeat split; try assumption.
    rewrite forallb_app, Hat. vsimpl. now rewrite Ha, Hal.
  - repeat split; try assumption.
    rewrite forallb_app, Hat. cbn [forallb]. unfold valid_attribute.
    cbn [attr_name attr_aggregate]. rewrite aggregate_text_valid.
    rewrite !andb_true_r. unfold aggregate_name.
    destruct a as [s|]; [| apply valid_name_id].
    destruct (JS.truthy_string s); [| apply valid_name_id].
    cbn [andb] in E. unfold valid_name.
    destruct (Validator.invalid_name s); [discriminate | reflexivity].
  - destruct (Validator.invalid_name a) eqn:Ha; [discriminate |].
    destruct (Validator.includes Validator.validOperators op) eqn:Hop;
      [| discriminate].
    repeat split; try assumption.
    cbn [opt_forall]. now apply add_condition_flat.
  - destruct (Validator.invalid_name a) eqn:Ha; [discriminate |].
    destruct (Validator.includes Validator.validOrders (default "asc" o))
      eqn:Ho; [| discriminate].
    repeat split; try assumption.
    cbn [opt_forall]. rewrite forallb_app.
    assert (forallb valid_order (default [] os) = true) as ->
        by (destruct os; [exact Hos | reflexivity]).
    vsimpl. now rewrite Ha, Ho.
  - destruct (refused n) eqn:Hn; [discriminate |].
    repeat split; try assumption. cbn [opt_forall]. now rewrite Hn.
  - destruct (JS.ltb pg 1) eqn:Hp; [discriminate |].
    destruct (refused (default (JS.Num 50) s)) eqn:Hs; [discriminate |].
    repeat split; try assumption.
    cbn [checked_paging]. now rewrite Hp, Hs.
  - destruct (Validator.invalid_name en) eqn:He; [discriminate |].
    destruct (Validator.invalid_name f) eqn:Hf; [discriminate |].
    destruct (Validator.invalid_name tt') eqn:Ht; [discriminate |].
    repeat split; try assumption.
    cbn [opt_forall]. rewrite forallb_app.
    assert (forallb valid_link (default [] ls) = true) as ->
        by (destruct ls; [exact Hls | reflexivity]).
    vsimpl. now rewrite He, Hf, Ht.
Qed.

Lemma link_effect_valid (c : JoinCall) (l : LinkEntity) :
  call_error (as_builder_call c) = None ->
  valid_link l = true -> valid_link (link_effect c l) = true.
Proof.
  intros E H. unfold valid_link in *.
  destruct l as [n f t al k attrs fs ls].
  cbn [link_name link_from link_to link_attributes link_filters link_links]
    in H.
  rewrite !andb_true_iff in H.
  destruct H as (((((Hn & Hf) & Ht) & Hat) & Hfs) & Hls).
  destruct c as [xs | a al' | a op v];
    cbn [as_builder_call call_error] in E;
    cbn [link_effect link_push_attributes link_set_filters link_name
         link_from link_to link_attributes link_filters link_links];
    rewrite Hn, Hf, Ht, Hls; cbn [andb]; rewrite ?andb_true_r.
  - destruct (all_valid_names xs) eqn:Hxs; [| discriminate].
    rewrite forallb_app, Hat, Hfs, (plain_attributes_valid xs Hxs).
    reflexivity.
  - destruct (Validator.invalid_name a) eqn:Ha; [discriminate |].
    destruct (Validator.invalid_name al') eqn:Hal; [discriminate |].
    rewrite forallb_app, Hat, Hfs. vsimpl. now rewrite Ha, Hal.
  - destruct (Validator.invalid_name a) eqn:Ha; [discriminate |].
    destruct (Validator.includes Validator.validOperators op) eqn:Hop;
      [| discriminate].
    rewrite Hat. cbn [opt_forall andb]. now apply add_condition_flat.
Qed.

Lemma forallb_update_nth {A} (p : A -> bool) (f : A -> A) (l : list A)
      (i : nat) :
  (forall x, nth_error l i = Some x -> p (f x) = true) ->
  forallb p l = true -> forallb p (update_nth i f l) = true.
Proof.
  revert i. induction l as [|y l IH]; intros i Hf H; [now destruct i |].
  cbn [forallb] in H. apply andb_true_iff in H as [Hy Hl].
  destruct i as [|i]; cbn [update_nth forallb].
  - now rewrite (Hf y eq_refl), Hl.
  - rewrite Hy. apply IH; [| exact Hl]. intros x Hx. now apply Hf.
Qed.

Lemma step_checked (s : Step) (this : BaseEntity) :
  checked_query (query this) = true ->
  checked_query (query (store (step s this))) = true.
Proof.
  intros H. destruct s as [c | | a | jb c]; cbn [step].
  - rewrite perform_run. destruct (call_error c) eqn:E; [exact H |].
    cbn [store snd query]. now apply call_effect_checked.
  - apply checked_query_parts in H. apply checked_query_parts.
    destruct this as [cls [e attrs fs os ls d t p cnt]].
    cbn [BaseEntity.distinct modify store snd set_query set_distinct query
         attributes filters orders links top page count distinct opt_forall]
      in *.
    tauto.
  - unfold BaseEntity.groupBy, bind, call, ret,
      Validator.validateAttributeName.
    destruct (Validator.invalid_name a); exact H.
  - unfold bind. rewrite on_link_run.
    destruct (nth_error (default [] (links (query this))) (link jb))
      as [l|] eqn:El; [| exact H].
    assert (Hst :
      store
        (let (r, s') :=
           (lift_outcome (outcome (perform_join c l)),
            set_query
              (fun x =>
                 set_links
                   (option_map
                      (update_nth (link jb)
                         (fun _ => store (perform_join c l)))
                      (links x)) x) this) in
         match r with
         | Ok _ => ret tt s'
         | Throw e => (Throw e, s')
         end)
      = set_query
          (fun x =>
             set_links
               (option_map
                  (update_nth (link jb) (fun _ => store (perform_join c l)))
                  (links x)) x) this).
    { destruct (lift_outcome (outcome (perform_join c l))); reflexivity. }
    rewrite Hst. clear Hst.
    apply checked_query_parts in H. apply checked_query_parts.
    destruct this as [cls [e attrs fs os [ls|] d t p cnt]];
      cbn [set_query set_links query attributes filters orders links top page
           count distinct option_map default opt_forall] in *;
      [| destruct (link jb); discriminate El].
    destruct H as (Hat & Hfs & Hos & Hls & Htop & Hpg & Hd).
    repeat split; try assumption.
    apply forallb_update_nth; [| exact Hls].
    intros x Hx. rewrite perform_join_run.
    assert (Hl : valid_link l = true).
    { rewrite forallb_forall in Hls. apply Hls.
      now apply (nth_error_In ls (link jb)). }
    destruct (call_error (as_builder_call c)) eqn:E; cbn [store snd];
      [exact Hl | now apply link_effect_valid].
Qed.

Lemma after_steps_checked (l : list Step) (this : BaseEntity) :
  checked_query (query this) = true ->
  checked_query (query (after_steps l this)) = true.
Proof.
  unfold after_steps. revert this.
  induction l as [|s l IH]; intros this H; [exact H |].
  cbn [fold_left]. apply IH. now apply step_checked.
Qed.

Lemma step_finite (s : Step) (this : BaseEntity) :
  step_without_NaN s = true ->
  finite_numbers (query this) = true ->
  finite_numbers (query (store (step s this))) = true.
Proof.
  intros Hs H. destruct s as [c | | a | jb c]; cbn [step].
  - rewrite perform_run. destruct (call_error c) eqn:E; [exact H |].
    cbn [store snd query]. unfold finite_numbers in *.
    destruct this as [cls [ent attrs fs os ls d t p cnt]].
    destruct c as [xs|a al|m a al|a op v|a o|n|pg sz|en f tt' al k];
      cbn [call_effect query top page count set_top set_page set_count
           push_attributes set_filters set_orders set_links opt_forall
           step_without_NaN] in *;
      try exact H.
    + apply andb_true_iff in H as [H Hc]. apply andb_true_iff in H as [_ Hp].
      now rewrite Hs, Hp, Hc.
    + apply andb_true_iff in H as [H _]. apply andb_true_iff in H as [Ht _].
      apply andb_true_iff in Hs as [Hpg Hsz]. now rewrite Ht, Hpg, Hsz.
  - destruct this as [cls [ent attrs fs os ls d t p cnt]]. exact H.
  - unfold BaseEntity.groupBy, bind, call, ret,
      Validator.validateAttributeName.
    destruct (Validator.invalid_name a); exact H.
  - unfold bind. rewrite on_link_run.
    destruct (nth_error (default [] (links (query this))) (link jb))
      as [l|]; [| exact H].
    destruct (lift_outcome (outcome (perform_join c l)));
      destruct this as [cls [ent attrs fs os ls d t p cnt]]; exact H.
Qed.

Lemma after_steps_finite (l : list Step) (this : BaseEntity) :
  forallb step_without_NaN l = true ->
  finite_numbers (query this) = true ->
  finite_numbers (query (after_steps l this)) = true.
Proof.
  unfold after_steps. revert this.
  induction l as [|s l IH]; intros this Hl H; [exact H |].
  cbn [forallb] in Hl. apply andb_true_iff in Hl as [Hs Hl].
  cbn [fold_left]. apply IH; [exact Hl | now apply step_finite].
Qed.

End Validity.

(** X22. Whatever chain of calls is made on a fresh builder (entity
    builder calls, [distinct], [groupBy], and join builder calls through any
    builder obtained on the way), and whichever of them throw and are caught,
    the query holds only what the checks let through: every attribute,
    condition, order and link carries names that are not blank; operators,
    orders and aggregates come from their fixed sets; the filter tree of the
    query and of every link is a single [and] group of conditions with no
    nested group; no link has a nested link; [page] and [count] are set
    together; [top] and [count] are in 1..5000 or NaN, and [page] is at
    least 1 or NaN.  NaN gets in because the range checks let it through:
    after [top(NaN)] the [top] is NaN.  When no NaN is passed to [top] or
    [page], [top] and [count] are in 1..5000 and [page] is at least 1.  The
    root entity name is not part of this: it is never checked. *)
Theorem built_queries_hold_checked_data :
  (forall (cls name : string) (l : list Step),
      checked_query (query (after_steps l (BaseEntity.new cls name))) = true)
  /\ (forall (cls name : string) (l : list Step),
         forallb step_without_NaN l = true ->
         valid_query (query (after_steps l (BaseEntity.new cls name))) = true)
  /\ (forall (cls name : string),
         top (query (after_steps [StepCall (CallTop JS.NaN)]
                       (BaseEntity.new cls name))) = Some JS.NaN
         /\ valid_query
              (query (after_steps [StepCall (CallTop JS.NaN)]
                        (BaseEntity.new cls name))) = false).
Proof.
  split; [| split].
  - intros cls name l. now apply after_steps_checked.
  - intros cls name l Hl. rewrite valid_query_split.
    rewrite after_steps_checked by reflexivity.
    now rewrite after_steps_finite.
  - intros cls name. split; reflexivity.
Qed.

Lemma built_queries_hold_checked_data_witness :
  valid_query
    (query (after_steps
              [StepCall (CallTop 10); StepCall (CallSelect ["name"; " "]);
               StepCall (CallPage 2 None)]
              (BaseEntity.new "account" "account"))) = true.
Proof.
  exact (proj1 (proj2 built_queries_hold_checked_data) "account" "account"
           [StepCall (CallTop 10); StepCall (CallSelect ["name"; " "]);
            StepCall (CallPage 2 None)] eq_refl).
Defined.

(** ** Truthiness tests of the renderer *)

Section Truthiness.




End Truthiness.



(** X24. [join] checks the joined entity's name and the two key names
    and nothing else: the alias and the link type are taken as given,
    whatever strings they are.  An empty alias or link type is then left out
    of the rendered opening tag exactly as an absent one is. *)
Theorem join_takes_alias_and_link_type_unchecked :
  (forall (e f t : string) (al k al' k' : option string) (this : BaseEntity),
      outcome (perform (CallJoin e f t al k) this)
      = outcome (perform (CallJoin e f t al' k') this))
  /\ (forall (e f t : string) (al k : option string) (attrs : list Attribute)
             (fs : option FilterGroup) (ls : option (list LinkEntity)),
         FetchXMLBuilder.buildLinkEntity
           (mkLinkEntity e f t (Some EmptyString) k attrs fs ls)
         = FetchXMLBuilder.buildLinkEntity
             (mkLinkEntity e f t None k attrs fs ls)
         /\ FetchXMLBuilder.buildLinkEntity
              (mkLinkEntity e f t al (Some EmptyString) attrs fs ls)
            = FetchXMLBuilder.buildLinkEntity
                (mkLinkEntity e f t al None attrs fs ls)).
Proof.
  split.
  - intros. rewrite !perform_run. cbn [call_error].
    destruct (Validator.invalid_name e); [reflexivity |].
    destruct (Validator.invalid_name f); [reflexivity |].
    destruct (Validator.invalid_name t); reflexivity.
  - intros. rewrite !buildLinkEntity_closed. split; reflexivity.
Qed.

(** ** The logger *)

(** X25. The logger is created once.  The first [getInstance] builds it
    from the configuration it is given, or from level info and enabled when
    none is given, stores it and returns it; every later [getInstance]
    returns the stored logger and ignores its argument.  The constructor
    hands the configured level to the library's logger and sets its silent
    flag to the negation of [enabled].  [updateConfig] replaces the keys it
    is given, keeps the others, and sets the library's level and silent flag
    from the merged configuration. *)
Theorem logger_is_created_once :
  (forall c : LoggerConfig,
      LoggerClass.new (Some c) = mkLogger c (level c) (negb (enabled c)))
  /\ LoggerClass.new None
     = mkLogger (mkLoggerConfig LevelInfo true) LevelInfo false
  /\ (forall c : option LoggerConfig,
         LoggerClass.getInstance c None
         = (Ok (LoggerClass.new c), Some (LoggerClass.new c)))
  /\ (forall (c : option LoggerConfig) (l : Logger),
         LoggerClass.getInstance c (Some l) = (Ok l, Some l))
  /\ (forall (c1 c2 : option LoggerConfig),
         bind (LoggerClass.getInstance c1)
              (fun _ => LoggerClass.getInstance c2) None
         = (Ok (LoggerClass.new c1), Some (LoggerClass.new c1)))
  /\ (forall (p : PartialLoggerConfig) (l : Logger),
         LoggerClass.updateConfig p l
         = (Ok tt,
            let merged :=
              mkLoggerConfig
                (match partial_level p with
                 | Some v => v
                 | None => level (config l)
                 end)
                (match partial_enabled p with
                 | Some b => b
                 | None => enabled (config l)
                 end) in
            mkLogger merged (level merged) (negb (enabled merged))))
  /\ (forall (p : PartialLoggerConfig) (l : Logger),
         logger_in_sync (store (LoggerClass.updateConfig p l))).
Proof.
  split; [reflexivity |]. split; [reflexivity |].
  split; [reflexivity |]. split; [reflexivity |].
  split; [reflexivity |]. split.
  - intros [[lv|] [en|]] l; reflexivity.
  - intros p l. split; reflexivity.
Qed.
